(** * A shallow embedding of [src/sigv4.rs] (SigV4 request signing of kla)

    The development follows [SigV4Builder::sign] statement by statement as a
    state-and-error computation over the request it owns.  The three calls
    into the external [aws_sigv4] crate ([SignableRequest::new], the v4
    [SigningParams] builder and [sign]) are modelled separately: the
    orchestration is proved against any behaviour of [SignableRequest::new]
    and [sign], and a concrete model of the crate's header-mode signing
    (SHA-256, HMAC-SHA256, canonical request, string to sign, signing key)
    is used for the concrete runs. *)

From Stdlib Require Import ZArith List String Ascii Bool Lia.
Import ListNotations.
Open Scope string_scope.

(* ================================================================= *)
(** ** Bytes and SHA-256 *)

Module Sha256.
Open Scope Z_scope.
Open Scope list_scope.

Definition mask32 (x : Z) : Z := Z.land x (2 ^ 32 - 1).
Definition add32 (x y : Z) : Z := mask32 (x + y).
Definition rotr (x : Z) (n : Z) : Z :=
  Z.lor (Z.shiftr x n) (mask32 (Z.shiftl x (32 - n))).

Definition ch (x y z : Z) : Z := Z.lxor (Z.land x y) (Z.land (Z.lxor x (2 ^ 32 - 1)) z).
Definition maj (x y z : Z) : Z := Z.lxor (Z.lxor (Z.land x y) (Z.land x z)) (Z.land y z).
Definition bsig0 (x : Z) : Z := Z.lxor (Z.lxor (rotr x 2) (rotr x 13)) (rotr x 22).
Definition bsig1 (x : Z) : Z := Z.lxor (Z.lxor (rotr x 6) (rotr x 11)) (rotr x 25).
Definition ssig0 (x : Z) : Z := Z.lxor (Z.lxor (rotr x 7) (rotr x 18)) (Z.shiftr x 3).
Definition ssig1 (x : Z) : Z := Z.lxor (Z.lxor (rotr x 17) (rotr x 19)) (Z.shiftr x 10).

(** The primes below 312 (the first 64 primes), by trial division. *)
Definition is_prime (p : Z) : bool :=
  forallb (fun d => negb (p mod d =? 0)) (map Z.of_nat (seq 2 (Z.to_nat p - 2))).

Definition first_primes : list Z := filter is_prime (map Z.of_nat (seq 2 310)).

(** The largest [x] in [[lo, hi)] with [f x], for [f] true at [lo] and monotone. *)
Fixpoint bisect (f : Z -> bool) (fuel : nat) (lo hi : Z) : Z :=
  match fuel with
  | O => lo
  | S k =>
      if hi - lo <=? 1 then lo
      else let mid := (lo + hi) / 2 in
           if f mid then bisect f k mid hi else bisect f k lo mid
  end.

(** Integer cube root of [n < 2 ^ 105]. *)
Definition icbrt (n : Z) : Z := bisect (fun x => x * x * x <=? n) 64 0 (2 ^ 35).

(** Round constants of FIPS 180-4, section 4.2.2: the first 32 bits of the
    fractional parts of the cube roots of the first 64 primes. *)
Definition round_k : list Z :=
  Eval vm_compute in map (fun p => icbrt (p * 2 ^ 96) mod 2 ^ 32) first_primes.

(** Initial hash value, section 5.3.3: the first 32 bits of the fractional
    parts of the square roots of the first 8 primes. *)
Definition init_h : list Z :=
  Eval vm_compute in map (fun p => Z.sqrt (p * 2 ^ 64) mod 2 ^ 32) (firstn 8 first_primes).

(** Big-endian packing of bytes into 32-bit words and back. *)
Fixpoint words_of_bytes (bs : list Z) : list Z :=
  match bs with
  | b0 :: b1 :: b2 :: b3 :: rest =>
      (b0 * 2 ^ 24 + b1 * 2 ^ 16 + b2 * 2 ^ 8 + b3) :: words_of_bytes rest
  | _ => []
  end.

Definition bytes_of_word (w : Z) : list Z :=
  [ Z.land (Z.shiftr w 24) 255; Z.land (Z.shiftr w 16) 255;
    Z.land (Z.shiftr w 8) 255; Z.land w 255 ].

(** Message padding, section 5.1.1: a 1 bit, zeros, the 64-bit length. *)
Definition padding (len : nat) : list Z :=
  let zeros := ((119 - (len mod 64)) mod 64)%nat in
  [128] ++ repeat 0 zeros ++
  flat_map bytes_of_word
    [ Z.shiftr (Z.of_nat len * 8) 32; mask32 (Z.of_nat len * 8) ].

(** The message schedule W0..W63 of one block. *)
Fixpoint schedule_from (n : nat) (w : list Z) : list Z :=
  match n with
  | O => w
  | S n' =>
      let t := List.length w in
      let wt := add32 (add32 (ssig1 (nth (t - 2)%nat w 0)) (nth (t - 7)%nat w 0))
                      (add32 (ssig0 (nth (t - 15)%nat w 0)) (nth (t - 16)%nat w 0)) in
      schedule_from n' (w ++ [wt])
  end.

Definition schedule (block : list Z) : list Z := schedule_from 48 (words_of_bytes block).

(** One round of the compression function on the working variables a..h. *)
Definition round (st : list Z) (kw : Z * Z) : list Z :=
  match st with
  | [a; b; c; d; e; f; g; h] =>
      let t1 := add32 (add32 (add32 h (bsig1 e)) (add32 (ch e f g) (fst kw))) (snd kw) in
      let t2 := add32 (bsig0 a) (maj a b c) in
      [add32 t1 t2; a; b; c; add32 d t1; e; f; g]
  | _ => st
  end.

Definition compress (hv : list Z) (block : list Z) : list Z :=
  let final := fold_left round (combine round_k (schedule block)) hv in
  map (fun p => add32 (fst p) (snd p)) (combine hv final).

Fixpoint blocks (fuel : nat) (bs : list Z) : list (list Z) :=
  match fuel with
  | O => []
  | S fuel' =>
      match bs with
      | [] => []
      | _ => firstn 64 bs :: blocks fuel' (skipn 64 bs)
      end
  end.

Definition digest (msg : list Z) : list Z :=
  let padded := msg ++ padding (List.length msg) in
  flat_map bytes_of_word (fold_left compress (blocks (List.length padded) padded) init_h).

End Sha256.

(** Strings are byte strings: a Rust [String] or header value is the list of
    its (UTF-8) bytes. *)
Definition bytes_of_string (s : string) : list Z :=
  map (fun c => Z.of_N (N_of_ascii c)) (list_ascii_of_string s).

Definition string_of_bytes (bs : list Z) : string :=
  string_of_list_ascii (map (fun b => ascii_of_N (Z.to_N b)) bs).

Definition hex_digit (n : Z) : ascii :=
  nth (Z.to_nat n) (list_ascii_of_string "0123456789abcdef") "0"%char.

(** Lowercase hexadecimal encoding, two digits per byte. *)
Definition hex_encode (bs : list Z) : string :=
  string_of_list_ascii
    (flat_map (fun b => [hex_digit (Z.shiftr b 4); hex_digit (Z.land b 15)]) bs).

Definition sha256 (s : string) : list Z := Sha256.digest (bytes_of_string s).

(** HMAC-SHA256 (RFC 2104) with a 64-byte block. *)
Definition hmac_sha256 (key msg : list Z) : list Z :=
  let k := if (64 <? List.length key)%nat then Sha256.digest key else key in
  let k0 := (k ++ repeat 0%Z (64 - List.length k))%list in
  let ipad := map (fun b => Z.lxor b 0x36) k0 in
  let opad := map (fun b => Z.lxor b 0x5c) k0 in
  Sha256.digest (opad ++ Sha256.digest (ipad ++ msg))%list.

(* ================================================================= *)
(** ** Text helpers: decimal digits, ASCII case, header byte classes *)

(** The line feed separating the lines of the canonical request. *)
Definition nl : string := String (ascii_of_nat 10) "".

Definition byte_of (c : ascii) : Z := Z.of_N (N_of_ascii c).
Definition char_of (b : Z) : ascii := ascii_of_N (Z.to_N b).

Fixpoint decimal_aux (fuel : nat) (n : N) (acc : string) : string :=
  match fuel with
  | O => acc
  | S fuel' =>
      let acc' := String (ascii_of_N (48 + N.modulo n 10)) acc in
      if (n <? 10)%N then acc' else decimal_aux fuel' (N.div n 10) acc'
  end.

(** Decimal digits of a natural number ([Display] of an unsigned integer). *)
Definition decimal (n : N) : string := decimal_aux 64 n "".

Fixpoint zeros (k : nat) : string :=
  match k with O => "" | S k' => String "0" (zeros k') end.

(** [{:0w}] of a non-negative number: left-padded with zeros to width [w]. *)
Definition pad0 (w : nat) (n : N) : string :=
  let d := decimal n in zeros (w - String.length d) ++ d.

Definition lower_ascii (c : ascii) : ascii :=
  let b := byte_of c in
  if ((65 <=? b) && (b <=? 90))%Z then char_of (b + 32) else c.

(** [str::to_lowercase] restricted to ASCII (header names are ASCII). *)
Definition to_lowercase (s : string) : string :=
  string_of_list_ascii (map lower_ascii (list_ascii_of_string s)).

(** Bytes accepted by [HeaderValue::from_str]: HTAB, or 0x20..0xFF except DEL. *)
Definition header_value_byte (c : ascii) : bool :=
  let b := byte_of c in ((b =? 9) || ((32 <=? b) && negb (b =? 127)))%Z.

(** Bytes accepted by [HeaderValue::to_str]: HTAB or visible ASCII. *)
Definition visible_ascii (c : ascii) : bool :=
  let b := byte_of c in ((b =? 9) || ((32 <=? b) && (b <? 127)))%Z.

(** The token characters of RFC 9110 allowed in a [HeaderName]. *)
Definition token_char (c : ascii) : bool :=
  let b := byte_of c in
  ((48 <=? b) && (b <=? 57))%Z || ((97 <=? b) && (b <=? 122))%Z
  || ((65 <=? b) && (b <=? 90))%Z
  || existsb (fun d => Ascii.eqb d c) (list_ascii_of_string "!#$%&'*+-.^_`|~").

Definition all_bytes (p : ascii -> bool) (s : string) : bool :=
  forallb p (list_ascii_of_string s).

(** [HeaderValue::from_str]: the value itself, or an error. *)
Definition header_value_from_str (s : string) : option string :=
  if all_bytes header_value_byte s then Some s else None.

(** [HeaderName::from_str]: a non-empty token, normalised to lowercase. *)
Definition header_name_from_str (s : string) : option string :=
  if negb (String.eqb s "") && all_bytes token_char s then Some (to_lowercase s) else None.

(* ================================================================= *)
(** ** Dates ([chrono::DateTime<Utc>] and [SystemTime]) *)

(** A UTC instant by its calendar fields; a [SystemTime] read from the clock
    is represented by the same record. *)
Record DateTime := mkDateTime {
  year : Z; month : Z; day : Z;
  hour : Z; minute : Z; second : Z; nanosecond : Z }.

(** chrono's [%Y]: four digits for years 0..9999, otherwise [{:+05}]. *)
Definition chrono_year (y : Z) : string :=
  if ((0 <=? y) && (y <=? 9999))%Z then pad0 4 (Z.to_N y)
  else (if (y <? 0)%Z then "-" else "+") ++ pad0 4 (Z.to_N (Z.abs y)).

Definition two (n : Z) : string := pad0 2 (Z.to_N n).

(** [date.format("%Y%m%d%H%M%SZ")], the format string of [sign]. *)
Definition format_amz_date (d : DateTime) : string :=
  chrono_year (year d) ++ two (month d) ++ two (day d)
  ++ two (hour d) ++ two (minute d) ++ two (second d) ++ "Z".

(* ================================================================= *)
(** ** Header maps, URLs, requests *)

(** [http::HeaderMap]: entries in insertion order, one per (lowercase)
    name, each with its values. *)
Definition HeaderMap := list (string * list string).

Definition hm_contains_key (k : string) (m : HeaderMap) : bool :=
  existsb (fun e => String.eqb (fst e) k) m.

(** [HeaderMap::get] with a [&str] key: case-insensitive, first value. *)
Fixpoint hm_get (k : string) (m : HeaderMap) : option string :=
  match m with
  | [] => None
  | (n, vs) :: t =>
      if String.eqb n (to_lowercase k) then
        match vs with [] => None | v :: _ => Some v end
      else hm_get k t
  end.

Definition hm_remove_all (k : string) (m : HeaderMap) : HeaderMap :=
  filter (fun e => negb (String.eqb (fst e) k)) m.

(** [HeaderMap::insert]: an existing entry keeps its place and gets the
    single new value (its other values are dropped); a new name goes last. *)
Fixpoint hm_insert (k : string) (v : string) (m : HeaderMap) : HeaderMap :=
  match m with
  | [] => [(k, [v])]
  | (n, vs) :: t =>
      if String.eqb n k then (k, [v]) :: hm_remove_all k t
      else (n, vs) :: hm_insert k v t
  end.

(** [url::Url] by the parts [sign] reads; [host] is the serialised host. *)
Record Url := mkUrl {
  scheme : string; host : option string; path : string; query : option string }.

(** [form_urlencoded::byte_serialize]. *)
Definition form_byte (c : ascii) : string :=
  let b := byte_of c in
  if ((48 <=? b) && (b <=? 57))%Z || ((65 <=? b) && (b <=? 90))%Z
     || ((97 <=? b) && (b <=? 122))%Z
     || existsb (fun d => Ascii.eqb d c) ["*"; "-"; "."; "_"]%char
  then String c ""
  else if (b =? 32)%Z then "+"
  else String "%" (String (ascii_of_N (Z.to_N (let h := Z.shiftr b 4 in
                                                 if (h <? 10)%Z then 48 + h else 55 + h)))
                  (String (ascii_of_N (Z.to_N (let l := Z.land b 15 in
                                                 if (l <? 10)%Z then 48 + l else 55 + l))) "")).

Definition byte_serialize (s : string) : string :=
  String.concat "" (map form_byte (list_ascii_of_string s)).

(** [url.query_pairs_mut().append_pair(k, v)]. *)
Definition append_pair (k v : string) (u : Url) : Url :=
  let q := match query u with None => "" | Some q => q end in
  let sep := if String.eqb q "" then "" else "&" in
  {| scheme := scheme u; host := host u; path := path u;
     query := Some (q ++ sep ++ byte_serialize k ++ "=" ++ byte_serialize v) |}.

(** [reqwest::Body]: in-memory bytes, or a stream ([as_bytes] is [None]). *)
Inductive Body := BytesBody (bytes : string) | StreamBody.

Definition as_bytes (b : Body) : option string :=
  match b with BytesBody bs => Some bs | StreamBody => None end.

Module Http.
Record Request := mkRequest {
  method : string; url : Url; headers : HeaderMap; body : option Body }.

Definition with_headers (hs : HeaderMap) (r : Request) : Request :=
  {| method := method r; url := url r; headers := hs; body := body r |}.
Definition with_url (u : Url) (r : Request) : Request :=
  {| method := method r; url := u; headers := headers r; body := body r |}.
End Http.

(* ================================================================= *)
(** ** Credentials, the builder, errors *)

(** [aws_credential_types::Credentials]. *)
Record Credentials := mkCredentials {
  access_key_id : string; secret_access_key : string; session_token : option string }.

(** [SignedHeaders(Vec<String>)]. *)
Definition SignedHeaders := list string.

(** [impl Default for SignedHeaders]. *)
Definition signed_headers_default : SignedHeaders := ["host"; "x-amz-date"].

(** [SignedHeaders::push]. *)
Definition signed_headers_push (hs : SignedHeaders) (v : string) : SignedHeaders :=
  (hs ++ [v])%list.

Record SigV4Builder := mkSigV4Builder {
  headers : SignedHeaders;
  date : option DateTime;
  region : option string;
  service : option string;
  credentials : option Credentials }.

(** [SigV4Builder::new] (= [Default::default]). *)
Definition builder_new : SigV4Builder :=
  {| headers := signed_headers_default; date := None; region := None;
     service := None; credentials := None |}.

Definition builder_header (b : SigV4Builder) (h : string) : SigV4Builder :=
  {| headers := signed_headers_push (headers b) h; date := date b; region := region b;
     service := service b; credentials := credentials b |}.
Definition builder_date (b : SigV4Builder) (d : DateTime) : SigV4Builder :=
  {| headers := headers b; date := Some d; region := region b;
     service := service b; credentials := credentials b |}.
Definition builder_region (b : SigV4Builder) (r : string) : SigV4Builder :=
  {| headers := headers b; date := date b; region := Some r;
     service := service b; credentials := credentials b |}.
Definition builder_service (b : SigV4Builder) (s : string) : SigV4Builder :=
  {| headers := headers b; date := date b; region := region b;
     service := Some s; credentials := credentials b |}.
Definition builder_credentials (b : SigV4Builder) (c : Credentials) : SigV4Builder :=
  {| headers := headers b; date := date b; region := region b;
     service := service b; credentials := Some c |}.

(** [enum SigningError]; the variant [SigningError(Sigv4SigningError)] is
    named [SigningErr] since a constructor cannot share its type's name. *)
Inductive SigningError :=
| BuildError (msg : string)
| Sigv4Error (e : string)
| SigningErr (e : string)
| ToStrError.

(* ================================================================= *)
(** ** The signing library's interface ([aws_sigv4]) *)

Inductive PayloadChecksumKind := NoHeader | XAmzSha256.

Record SigningSettings := mkSigningSettings { payload_checksum_kind : PayloadChecksumKind }.

Definition signing_settings_default : SigningSettings := {| payload_checksum_kind := NoHeader |}.

Record SigningParams := mkSigningParams {
  identity : Credentials; sp_region : string; sp_name : string;
  sp_time : DateTime; settings : SigningSettings }.

(** [v4::SigningParams::builder()...build()]: every field is required. *)
Definition v4_build (identity : option Credentials) (region name : option string)
    (time : option DateTime) (settings : option SigningSettings) : SigningParams + string :=
  match identity, region, name, time, settings with
  | Some i, Some r, Some n, Some t, Some s =>
      inl {| identity := i; sp_region := r; sp_name := n; sp_time := t; settings := s |}
  | None, _, _, _, _ => inr "identity is required"
  | _, None, _, _, _ => inr "region is required"
  | _, _, None, _, _ => inr "name is required"
  | _, _, _, None, _ => inr "time is required"
  | _, _, _, _, None => inr "settings are required"
  end.

(** [SignableRequest]: method, URI, the listed headers, body bytes. *)
Record SignableRequest := mkSignableRequest {
  sr_method : string; sr_uri : Url; sr_headers : list (string * string); sr_body : string }.

(** [SigningInstructions::into_parts]: headers and query parameters to add. *)
Record SigningInstructions := mkSigningInstructions {
  si_headers : list (string * string); si_params : list (string * string) }.

(* ================================================================= *)
(** ** The state-and-error monad of [sign]

    [sign] owns its request ([let mut req = req]); a computation maps the
    current value of [req] to its next value and an outcome: a value, an
    [Err] returned through [?], or a panic of an [expect]. *)

Inductive outcome (A : Type) :=
| Ok (a : A)
| Err (e : SigningError)
| Panic (msg : string).
Arguments Ok {A} a.
Arguments Err {A} e.
Arguments Panic {A} msg.

Definition M (A : Type) := Http.Request -> Http.Request * outcome A.

Definition ret {A} (a : A) : M A := fun r => (r, Ok a).

Definition bind {A B} (m : M A) (k : A -> M B) : M B :=
  fun r =>
    match m r with
    | (r', Ok a) => k a r'
    | (r', Err e) => (r', Err e)
    | (r', Panic p) => (r', Panic p)
    end.

Notation "x <- m ;; k" := (bind m (fun x => k)) (at level 61, m at next level, right associativity).
Notation "m ;; k" := (bind m (fun _ => k)) (at level 61, right associativity).

Definition get_req : M Http.Request := fun r => (r, Ok r).
Definition modify_headers (f : HeaderMap -> HeaderMap) : M unit :=
  fun r => (Http.with_headers (f (Http.headers r)) r, Ok tt).
Definition modify_url (f : Url -> Url) : M unit :=
  fun r => (Http.with_url (f (Http.url r)) r, Ok tt).

(** [opt.ok_or(e)?] *)
Definition ok_or {A} (o : option A) (e : SigningError) : M A :=
  fun r => match o with Some a => (r, Ok a) | None => (r, Err e) end.

(** [res.expect(msg)] *)
Definition expect {A} (o : option A) (msg : string) : M A :=
  fun r => match o with Some a => (r, Ok a) | None => (r, Panic msg) end.

(** [?] on a library [Result], through the [From] conversion [conv]. *)
Definition lift {A} (conv : string -> SigningError) (x : A + string) : M A :=
  fun r => match x with inl a => (r, Ok a) | inr e => (r, Err (conv e)) end.

(** The outcome of a library call that may panic. *)
Inductive lib_result (A : Type) : Type :=
| LibOk (a : A)
| LibErr (e : string)
| LibPanic (msg : string).
Arguments LibOk {A} a.
Arguments LibErr {A} e.
Arguments LibPanic {A} msg.

(** [?] on a library call that may panic, through the [From] conversion [conv]. *)
Definition lift_lib {A} (conv : string -> SigningError) (x : lib_result A) : M A :=
  fun r => match x with
           | LibOk a => (r, Ok a)
           | LibErr e => (r, Err (conv e))
           | LibPanic m => (r, Panic m)
           end.

(** [HeaderValue::to_str()?] *)
Definition to_str (v : string) : M string :=
  fun r => if all_bytes visible_ascii v then (r, Ok v) else (r, Err ToStrError).

(* ================================================================= *)
(** ** [SigV4Builder::sign]

    Within the section, [signable_new] is [SignableRequest::new] (it parses
    the serialised URL and may fail) and [aws_sign] is [aws_sigv4]'s [sign]
    followed by [into_parts], which may also panic; both are arbitrary. *)

Section Sign.
Variable signable_new :
  string -> Url -> list (string * string) -> string -> SignableRequest + string.
Variable aws_sign : SignableRequest -> SigningParams -> lib_result SigningInstructions.

(** Lines 165-172: make sure the host value is present. *)
Definition ensure_host : M unit :=
  req <- get_req ;;
  if hm_contains_key "host" (Http.headers req) then ret tt
  else
    let host := match host (Http.url req) with Some h => h | None => "" end in
    v <- expect (header_value_from_str host) "invalid header" ;;
    modify_headers (hm_insert "host" v).

(** Lines 174-182: insert or overwrite [x-amz-date]. *)
Definition set_amz_date (date : DateTime) : M unit :=
  v <- expect (header_value_from_str (format_amz_date date)) "how can this be invalid" ;;
  modify_headers (hm_insert "x-amz-date" v).

(** Lines 197-210: the (name, value) list of the headers to sign. *)
Fixpoint collect_signed (hs : list string) : M (list (string * string)) :=
  match hs with
  | [] => ret []
  | h :: t =>
      req <- get_req ;;
      v <- ok_or (hm_get h (Http.headers req))
             (BuildError ("missing header " ++ h ++ " which is required for signing")) ;;
      s <- to_str v ;;
      rest <- collect_signed t ;;
      ret ((h, s) :: rest)
  end.

(** Lines 216-220: [req.body().map(|m| m.as_bytes()).flatten().unwrap_or_default()]. *)
Definition signable_body (req : Http.Request) : string :=
  match Http.body req with
  | Some b => match as_bytes b with Some bs => bs | None => "" end
  | None => ""
  end.

(** Lines 229-235: add the headers of the signing instructions. *)
Fixpoint add_headers (hs : list (string * string)) : M unit :=
  match hs with
  | [] => ret tt
  | (n, v) :: t =>
      name <- expect (header_name_from_str n) "aws signature invalid" ;;
      value <- expect (header_value_from_str v) "aws signature invalid" ;;
      modify_headers (hm_insert name value) ;;
      add_headers t
  end.

(** Lines 237-242: add the query parameters of the signing instructions. *)
Fixpoint add_query (ps : list (string * string)) : M unit :=
  match ps with
  | [] => ret tt
  | (k, v) :: t => modify_url (append_pair k v) ;; add_query t
  end.

(** Lines 184-244: from the signing parameters to the signed request;
    [now1] is the [SystemTime::now()] of line 192. *)
Definition sign_tail (credentials : Credentials) (region service : string)
    (headers : SignedHeaders) (now1 : DateTime) : M Http.Request :=
  let signing_settings := {| payload_checksum_kind := XAmzSha256 |} in
  signing_params <- lift Sigv4Error
      (v4_build (Some credentials) (Some region) (Some service) (Some now1)
                (Some signing_settings)) ;;
  signed_headers <- collect_signed headers ;;
  req <- get_req ;;
  signable_request <- lift SigningErr
      (signable_new (Http.method req) (Http.url req) signed_headers (signable_body req)) ;;
  instructions <- lift_lib SigningErr (aws_sign signable_request signing_params) ;;
  add_headers (si_headers instructions) ;;
  add_query (si_params instructions) ;;
  get_req.

(** Lines 174-244. *)
Definition sign_after_host (credentials : Credentials) (date : DateTime)
    (region service : string) (headers : SignedHeaders) (now1 : DateTime) : M Http.Request :=
  set_amz_date date ;;
  sign_tail credentials region service headers now1.

(** Lines 165-244, once credentials, date, region and service are known. *)
Definition sign_configured (credentials : Credentials) (date : DateTime)
    (region service : string) (headers : SignedHeaders) (now1 : DateTime) : M Http.Request :=
  ensure_host ;;
  sign_after_host credentials date region service headers now1.

(** [SigV4Builder::sign]; [now0] and [now1] are the two clock readings
    [SystemTime::now()] of lines 157 and 192.  The first component of the
    result is the final value of the request [sign] owns. *)
Definition sign (b : SigV4Builder) (now0 now1 : DateTime) : M Http.Request :=
  credentials <- ok_or (credentials b)
      (BuildError "aws credentials are required when creating sigv4 request") ;;
  let date := match date b with Some d => d | None => now0 end in
  region <- ok_or (region b)
      (BuildError "region is required when creating a sigv4 request") ;;
  service <- ok_or (service b)
      (BuildError "service is required when creating a sigv4 request") ;;
  sign_configured credentials date region service (headers b) now1.

End Sign.

(* ================================================================= *)
(** ** A model of [aws_sigv4]'s header-mode signing

    Model of the external [aws_sigv4] crate (not part of this repository),
    following the SigV4 algorithm of spec sections 4.1-4.4 and the crate's
    header-mode output: the instructions carry [x-amz-date],
    [authorization], [x-amz-content-sha256] when the payload checksum kind
    is [XAmzSha256], and [x-amz-security-token] when the credentials carry
    a session token; no query parameters.  [SignableRequest::new] parses
    [url.to_string()] with [http::Uri], which refuses the serialisations of
    most URLs without a host, and signing panics on the authority-only URIs
    it accepts. *)

Module AwsSigv4.

(** [{:04}] of a year in the crate's date formatting. *)
Definition year4 (y : Z) : string :=
  if (0 <=? y)%Z then pad0 4 (Z.to_N y) else "-" ++ pad0 3 (Z.to_N (Z.abs y)).

(** [YYYYMMDD'T'HHMMSS'Z'] *)
Definition format_date_time (t : DateTime) : string :=
  year4 (year t) ++ two (month t) ++ two (day t) ++ "T"
  ++ two (hour t) ++ two (minute t) ++ two (second t) ++ "Z".

(** [YYYYMMDD] *)
Definition format_date (t : DateTime) : string :=
  year4 (year t) ++ two (month t) ++ two (day t).

Definition is_space (c : ascii) : bool := Ascii.eqb c " " || Ascii.eqb c (ascii_of_nat 9).

(** Drop leading and trailing whitespace, collapse inner runs to one space. *)
Fixpoint collapse (cs : list ascii) (started pending : bool) : list ascii :=
  match cs with
  | [] => []
  | c :: t =>
      if is_space c then collapse t started started
      else if pending then " "%char :: c :: collapse t true false
      else c :: collapse t true false
  end.

Definition trim_all (v : string) : string :=
  string_of_list_ascii (collapse (list_ascii_of_string v) false false).

(** Strict RFC 3986 encoding: unreserved bytes kept ([/] too when [keep_slash]),
    every other byte as [%XX] with uppercase hex. *)
Definition uri_encode_byte (keep_slash : bool) (c : ascii) : string :=
  let b := byte_of c in
  let up n := ascii_of_N (Z.to_N (if (n <? 10)%Z then 48 + n else 55 + n)) in
  if ((48 <=? b) && (b <=? 57))%Z || ((65 <=? b) && (b <=? 90))%Z
     || ((97 <=? b) && (b <=? 122))%Z
     || existsb (fun d => Ascii.eqb d c) ["-"; "."; "_"; "~"]%char
     || (keep_slash && Ascii.eqb c "/")
  then String c ""
  else String "%" (String (up (Z.shiftr b 4)) (String (up (Z.land b 15)) "")).

Definition uri_encode (keep_slash : bool) (s : string) : string :=
  String.concat "" (map (uri_encode_byte keep_slash) (list_ascii_of_string s)).

Definition canonical_uri (u : Url) : string :=
  if String.eqb (path u) "" then "/" else uri_encode true (path u).

Fixpoint split_on (sep : ascii) (cs : list ascii) (cur : list ascii) : list string :=
  match cs with
  | [] => [string_of_list_ascii (rev cur)]
  | c :: t =>
      if Ascii.eqb c sep then string_of_list_ascii (rev cur) :: split_on sep t []
      else split_on sep t (c :: cur)
  end.

(** A parameter [k=v] split at its first [=]; a bare key has an empty value. *)
Definition split_param (p : string) : string * string :=
  match split_on "=" (list_ascii_of_string p) [] with
  | [] => ("", "")
  | [k] => (k, "")
  | k :: rest => (k, String.concat "=" rest)
  end.

Definition pair_leb (a b : string * string) : bool :=
  String.ltb (fst a) (fst b) || (String.eqb (fst a) (fst b) && String.leb (snd a) (snd b)).

Fixpoint insert_by {A} (le : A -> A -> bool) (x : A) (l : list A) : list A :=
  match l with
  | [] => [x]
  | y :: t => if le x y then x :: y :: t else y :: insert_by le x t
  end.

Definition sort_by {A} (le : A -> A -> bool) (l : list A) : list A :=
  fold_right (insert_by le) [] l.

Definition canonical_query (u : Url) : string :=
  match query u with
  | None => ""
  | Some q =>
      let ps := filter (fun p => negb (String.eqb p "")) (split_on "&" (list_ascii_of_string q) []) in
      let enc := map (fun p => let kv := split_param p in
                               (uri_encode false (fst kv), uri_encode false (snd kv))) ps in
      String.concat "&" (map (fun kv => fst kv ++ "=" ++ snd kv) (sort_by pair_leb enc))
  end.

(** Header names and values as [CanonicalRequest] normalises them. *)
Fixpoint normalize_headers (hs : list (string * string)) : list (string * string) + string :=
  match hs with
  | [] => inl []
  | (n, v) :: t =>
      match header_name_from_str (to_lowercase n), header_value_from_str (trim_all v) with
      | Some n', Some v' =>
          match normalize_headers t with inl t' => inl ((n', v') :: t') | inr e => inr e end
      | None, _ => inr "invalid header name"
      | _, None => inr "invalid header value"
      end
  end.

Definition set_header (n v : string) (hs : list (string * string)) : list (string * string) :=
  (filter (fun e => negb (String.eqb (fst e) n)) hs ++ [(n, v)])%list.

(** Sorted by name; the values of a repeated name joined by commas. *)
Fixpoint group_sorted (hs : list (string * string)) : list (string * string) :=
  match hs with
  | [] => []
  | (n, v) :: t =>
      match group_sorted t with
      | (n', v') :: t' => if String.eqb n n' then (n, v ++ "," ++ v') :: t'
                          else (n, v) :: (n', v') :: t'
      | [] => [(n, v)]
      end
  end.

Definition name_leb (a b : string * string) : bool := String.leb (fst a) (fst b).

(** The headers of the canonical request: the listed ones, the host from
    the URI when absent, [x-amz-date], the session token and the payload hash. *)
Definition canonical_headers (sr : SignableRequest) (p : SigningParams)
    (amz_date payload_hash : string) : list (string * string) + string :=
  match normalize_headers (sr_headers sr) with
  | inr e => inr e
  | inl hs =>
      let hs := if existsb (fun e => String.eqb (fst e) "host") hs then hs
                else match host (sr_uri sr) with
                     | Some h => set_header "host" h hs | None => hs end in
      let hs := set_header "x-amz-date" amz_date hs in
      let tok := match session_token (identity p) with
                 | None => inl hs
                 | Some t => match header_value_from_str t with
                             | Some t' => inl (set_header "x-amz-security-token" t' hs)
                             | None => inr "invalid security token"
                             end
                 end in
      match tok with
      | inr e => inr e
      | inl hs =>
          let hs := match payload_checksum_kind (settings p) with
                    | XAmzSha256 => set_header "x-amz-content-sha256" payload_hash hs
                    | NoHeader => hs end in
          inl (group_sorted (sort_by name_leb hs))
      end
  end.

Definition signed_headers_string (hs : list (string * string)) : string :=
  String.concat ";" (map fst hs).

Definition canonical_request (sr : SignableRequest) (hs : list (string * string))
    (payload_hash : string) : string :=
  sr_method sr ++ nl ++ canonical_uri (sr_uri sr) ++ nl ++ canonical_query (sr_uri sr)
  ++ nl ++ String.concat "" (map (fun e => fst e ++ ":" ++ snd e ++ nl) hs)
  ++ nl ++ signed_headers_string hs ++ nl ++ payload_hash.

Definition credential_scope (p : SigningParams) : string :=
  format_date (sp_time p) ++ "/" ++ sp_region p ++ "/" ++ sp_name p ++ "/aws4_request".

Definition string_to_sign (p : SigningParams) (creq : string) : string :=
  "AWS4-HMAC-SHA256" ++ nl ++ format_date_time (sp_time p) ++ nl
  ++ credential_scope p ++ nl ++ hex_encode (sha256 creq).

(** The four-step HMAC chain of spec section 4.2. *)
Definition signing_key (p : SigningParams) : list Z :=
  let k_date := hmac_sha256 (bytes_of_string ("AWS4" ++ secret_access_key (identity p)))
                            (bytes_of_string (format_date (sp_time p))) in
  let k_region := hmac_sha256 k_date (bytes_of_string (sp_region p)) in
  let k_service := hmac_sha256 k_region (bytes_of_string (sp_name p)) in
  hmac_sha256 k_service (bytes_of_string "aws4_request").

Definition calculate_signature (p : SigningParams) (sts : string) : string :=
  hex_encode (hmac_sha256 (signing_key p) (bytes_of_string sts)).

Definition authorization (p : SigningParams) (hs : list (string * string)) (sig : string) : string :=
  "AWS4-HMAC-SHA256 Credential=" ++ access_key_id (identity p) ++ "/" ++ credential_scope p
  ++ ", SignedHeaders=" ++ signed_headers_string hs ++ ", Signature=" ++ sig.

(** The headers of the signing instructions, in the crate's order. *)
Definition instruction_headers (p : SigningParams) (amz_date auth payload_hash : string)
    : list (string * string) :=
  [("x-amz-date", amz_date); ("authorization", auth)]
  ++ match payload_checksum_kind (settings p) with
     | XAmzSha256 => [("x-amz-content-sha256", payload_hash)] | NoHeader => [] end
  ++ match session_token (identity p) with
     | Some t => [("x-amz-security-token", t)] | None => [] end.

Definition payload_hash (body : string) : string := hex_encode (sha256 body).

(** [sign(signable_request, &signing_params)?.into_parts()].  The canonical
    headers come first; the canonical query is then rebuilt through
    [QueryWriter::build_uri], which panics on a URI that has no path, that
    is on the authority-only URIs [signable_new] accepts for URLs without a
    host. *)
Definition sign (sr : SignableRequest) (p : SigningParams) : lib_result SigningInstructions :=
  let amz_date := format_date_time (sp_time p) in
  let ph := payload_hash (sr_body sr) in
  match canonical_headers sr p amz_date ph with
  | inr e => LibErr e
  | inl hs =>
      match host (sr_uri sr) with
      | None => LibPanic "adding query should not invalidate URI"
      | Some _ =>
          let creq := canonical_request sr hs ph in
          let sig := calculate_signature p (string_to_sign p creq) in
          LibOk {| si_headers := instruction_headers p amz_date (authorization p hs sig) ph;
                   si_params := [] |}
      end
  end.

(** The bytes at which [http]'s authority parser stops. *)
Definition authority_end (c : ascii) : bool :=
  Ascii.eqb c "/" || Ascii.eqb c "?" || Ascii.eqb c "#".

(** Whether [http::Uri] parses [url.to_string()].  A URL with a host
    serialises to [scheme://host/path] and parses in absolute form.  A URL
    without a host serialises either with [://] and an empty authority (as
    [file:///tmp/x]), which is [InvalidFormat], or as [scheme:path] with
    [?query] when it has one; without [://] the whole string must be an
    authority, and an authority ends at the first [/], [?] or [#].  (The
    authority's character and colon checks are not modelled.) *)
Definition uri_parses (u : Url) : bool :=
  match host u, query u with
  | Some _, _ => true
  | None, None => negb (existsb authority_end (list_ascii_of_string (path u)))
  | None, Some _ => false
  end.

(** [SignableRequest::new] *)
Definition signable_new (m : string) (u : Url) (hs : list (string * string)) (body : string)
    : SignableRequest + string :=
  if uri_parses u then inl {| sr_method := m; sr_uri := u; sr_headers := hs; sr_body := body |}
  else inr "invalid URI".

End AwsSigv4.

(** [sign] with the model of the signing library. *)
Definition sign_aws := sign AwsSigv4.signable_new AwsSigv4.sign.

(** The outcome of [sign], without the dropped request. *)
Definition sign_result (b : SigV4Builder) (now0 now1 : DateTime) (r : Http.Request)
    : outcome Http.Request :=
  snd (sign_aws b now0 now1 r).

Definition header_of (o : outcome Http.Request) (k : string) : option string :=
  match o with Ok r => hm_get k (Http.headers r) | _ => None end.

(* ================================================================= *)
(** ** Derived notions used in the statements *)

(** The date [sign] puts in [x-amz-date] at line 178 (line 157). *)
Definition date_or (b : SigV4Builder) (now0 : DateTime) : DateTime :=
  match date b with Some d => d | None => now0 end.

(** The request after lines 165-172 (when the host value is a valid header value). *)
Definition host_step (r : Http.Request) : Http.Request :=
  if hm_contains_key "host" (Http.headers r) then r
  else Http.with_headers
         (hm_insert "host" (match host (Http.url r) with Some h => h | None => "" end)
                    (Http.headers r)) r.

(** The request after lines 165-182. *)
Definition prepared (d : DateTime) (r : Http.Request) : Http.Request :=
  Http.with_headers (hm_insert "x-amz-date" (format_amz_date d) (Http.headers (host_step r)))
                    (host_step r).

(** A host as [url::Url] serialises it is a valid header value. *)
Definition url_host_valid (u : Url) : bool :=
  match host u with Some h => all_bytes header_value_byte h | None => true end.

(** The URL has a host, and it is a valid header value. *)
Definition url_has_valid_host (u : Url) : bool :=
  match host u with Some h => all_bytes header_value_byte h | None => false end.

(** Builders a caller can obtain: [new] followed by the builder methods. *)
Inductive reachable : SigV4Builder -> Prop :=
| reach_new : reachable builder_new
| reach_header b h : reachable b -> reachable (builder_header b h)
| reach_date b d : reachable b -> reachable (builder_date b d)
| reach_region b x : reachable b -> reachable (builder_region b x)
| reach_service b x : reachable b -> reachable (builder_service b x)
| reach_credentials b c : reachable b -> reachable (builder_credentials b c).

(** The headers of a map whose names are not in [names], in order. *)
Definition headers_outside (names : list string) (m : HeaderMap) : HeaderMap :=
  filter (fun e => negb (existsb (String.eqb (fst e)) names)) m.

(** The header names [sign] may set: host, x-amz-date, authorization,
    x-amz-content-sha256, and x-amz-security-token with a session token. *)
Definition touched_headers (b : SigV4Builder) : list string :=
  ["host"; "x-amz-date"; "authorization"; "x-amz-content-sha256"]
  ++ match credentials b with
     | Some c => match session_token c with Some _ => ["x-amz-security-token"] | None => [] end
     | None => []
     end.

(** A sign-set entry has a text value in the request [sign] reads it from. *)
Definition signed_value_ok (r : Http.Request) (h : string) : bool :=
  match hm_get h (Http.headers r) with Some v => all_bytes visible_ascii v | None => false end.

(** The header map after [add_headers] has inserted every instruction header. *)
Definition hm_apply (hs : list (string * string)) (m : HeaderMap) : HeaderMap :=
  fold_left (fun m e => hm_insert (to_lowercase (fst e)) (snd e) m) hs m.

(** The signing parameters built at lines 188-195. *)
Definition tail_params (c : Credentials) (rg sv : string) (now1 : DateTime) : SigningParams :=
  {| identity := c; sp_region := rg; sp_name := sv; sp_time := now1;
     settings := {| payload_checksum_kind := XAmzSha256 |} |}.

(** The text [sign] passes into the header values of the signature: the
    access key id, the region and the service are header-value bytes. *)
Definition text_valid (o : option string) : bool :=
  match o with Some t => all_bytes header_value_byte t | None => true end.

Definition builder_text_valid (b : SigV4Builder) : bool :=
  text_valid (option_map access_key_id (credentials b)) && text_valid (region b)
  && text_valid (service b).

(** A header name of the canonical request is made of header-value bytes. *)
Definition name_ok (e : string * string) : Prop := all_bytes header_value_byte (fst e) = true.

(** An instruction header that lines 232-233 convert without panicking. *)
Definition entry_ok (e : string * string) : Prop :=
  header_name_from_str (fst e) <> None /\ all_bytes header_value_byte (snd e) = true.

(** The [SignableRequest] built at lines 212-221 from a request and the
    collected sign-set entries ([SignableRequest::new] of the library model,
    when it parses the URL). *)
Definition sr_of (s : Http.Request) (l : list (string * string)) : SignableRequest :=
  {| sr_method := Http.method s; sr_uri := Http.url s; sr_headers := l;
     sr_body := signable_body s |}.

(** The outcome of lines 184-244 with the library model, as one expression. *)
Definition tail_nf (c : Credentials) (rg sv : string) (hs : SignedHeaders) (now1 : DateTime)
    (s : Http.Request) : outcome Http.Request :=
  match snd (collect_signed hs s) with
  | Ok l =>
      if AwsSigv4.uri_parses (Http.url s) then
        match AwsSigv4.sign (sr_of s l) (tail_params c rg sv now1) with
        | LibOk i =>
            match snd (add_headers (si_headers i) s) with
            | Ok _ => Ok (Http.with_headers (hm_apply (si_headers i) (Http.headers s)) s)
            | Err e => Err e
            | Panic m => Panic m
            end
        | LibErr e => Err (SigningErr e)
        | LibPanic m => Panic m
        end
      else Err (SigningErr "invalid URI")
  | Err e => Err e
  | Panic m => Panic m
  end.

(** The header-map keys [add_headers] inserts for a list of instruction headers. *)
Definition hm_keys (hs : list (string * string)) : list string :=
  map (fun e => to_lowercase (fst e)) hs.

(** The keys of the instruction headers of the library model. *)
Definition instruction_keys (c : Credentials) : list string :=
  ["x-amz-date"; "authorization"; "x-amz-content-sha256"]
  ++ match session_token c with Some _ => ["x-amz-security-token"] | None => [] end.

(** Two requests with the same method, URL and body. *)
Definition same_message (s1 s2 : Http.Request) : Prop :=
  Http.method s1 = Http.method s2 /\ Http.url s1 = Http.url s2 /\ Http.body s1 = Http.body s2.

(** [Sigv4Request::sign_request] (lines 276-287), once the AWS configuration
    is loaded and the credentials fetched: the builder it signs with, from the
    configured region ([unwrap_or_default]), the service argument (default
    [execute-api]), the credentials and [SystemTime::now()]. *)
Definition sign_request_builder (config_region service_arg : option string)
    (credentials : Credentials) (now : DateTime) : SigV4Builder :=
  builder_credentials
    (builder_service
       (builder_region (builder_date builder_new now)
          (match config_region with Some r => r | None => "" end))
       (match service_arg with Some s => s | None => "execute-api" end))
    credentials.

(** An [http::HeaderMap] holds at least one value under each of its names. *)
Definition hm_wf (m : HeaderMap) : bool :=
  forallb (fun e => match snd e with [] => false | _ :: _ => true end) m.

(** The headers a signature adds besides host and x-amz-date. *)
Definition signature_headers : list string :=
  ["authorization"; "x-amz-content-sha256"; "x-amz-security-token"].

(** No name of the builder's sign-set is one of the signature headers. *)
Definition resign_safe (b : SigV4Builder) : bool :=
  forallb (fun h => negb (existsb (String.eqb (to_lowercase h)) signature_headers)) (headers b).

(** The builder's credentials carry a session token. *)
Definition has_token (b : SigV4Builder) : bool :=
  match credentials b with
  | Some c => match session_token c with Some _ => true | None => false end
  | None => false
  end.

(** [impl Display for SignedHeaders] (lines 85-90): the names lowercased and
    joined by [;]. *)
Definition signed_headers_fmt (hs : SignedHeaders) : string :=
  String.concat ";" (map to_lowercase hs).

(** A name made of ASCII bytes other than [;]. *)
Definition display_safe (h : string) : bool :=
  all_bytes (fun c => (byte_of c <? 128)%Z && negb (Ascii.eqb c ";")) h.

(** Two outcomes of the same kind, with related results. *)
Definition out_rel {A} (R : A -> A -> Prop) (o1 o2 : outcome A) : Prop :=
  match o1, o2 with
  | Ok a, Ok b => R a b
  | Err e1, Err e2 => e1 = e2
  | Panic m1, Panic m2 => m1 = m2
  | _, _ => False
  end.

(** Collected sign-set entries read from two requests that differ only in
    their x-amz-date values. *)
Definition date_entry_rel (a b : string * string) : Prop :=
  fst a = fst b /\
  (snd a = snd b \/
   (to_lowercase (fst a) = "x-amz-date" /\ all_bytes visible_ascii (snd a) = true /\
    all_bytes visible_ascii (snd b) = true)).

(** Normalised entries that differ at most in an x-amz-date value. *)
Definition norm_entry_rel (a b : string * string) : Prop :=
  fst a = fst b /\ (snd a = snd b \/ fst a = "x-amz-date").

(** Properties of computations in [M]. *)
Definition pure_m {A} (m : M A) : Prop := forall s, fst (m s) = s.
Definition no_err {A} (m : M A) : Prop := forall s e, snd (m s) <> Err e.
Definition no_panic {A} (m : M A) : Prop := forall s msg, snd (m s) <> Panic msg.
Definition err_keeps {A} (m : M A) : Prop := forall s e, snd (m s) = Err e -> fst (m s) = s.

(* ================================================================= *)
(** ** Concrete inputs *)

(** The date configured in the builder: 2015-08-30T12:36:00Z. *)
Definition builder_time : DateTime :=
  {| year := 2015; month := 8; day := 30; hour := 12; minute := 36; second := 0; nanosecond := 0 |}.

(** Two readings of the wall clock. *)
Definition clock_a : DateTime :=
  {| year := 2024; month := 1; day := 1; hour := 0; minute := 0; second := 0; nanosecond := 0 |}.
Definition clock_b : DateTime :=
  {| year := 2024; month := 1; day := 2; hour := 0; minute := 0; second := 0; nanosecond := 0 |}.

Definition example_credentials : Credentials :=
  {| access_key_id := "AKIDEXAMPLE";
     secret_access_key := "wJalrXUtnFEMI/K7MDENG+bPxRfiCYEXAMPLEKEY"; session_token := None |}.

Definition example_url : Url :=
  {| scheme := "https"; host := Some "example.amazonaws.com"; path := "/"; query := None |}.

(** [GET https://example.amazonaws.com/] with no header and no body. *)
Definition example_request : Http.Request :=
  {| Http.method := "GET"; Http.url := example_url; Http.headers := []; Http.body := None |}.

(** The example request with a header of the caller and a stale [x-amz-date]. *)
Definition frame_request : Http.Request :=
  Http.with_headers [("x-custom", ["v"]); ("x-amz-date", ["old"]); ("accept", ["*/*"])]
    example_request.

(** A request to a URL without a host ([mailto:]), with no header. *)
Definition hostless_request : Http.Request :=
  Http.with_url {| scheme := "mailto"; host := None; path := "someone@example.com";
                   query := None |} example_request.

(** A request to [file:///tmp/x], whose URL has no host, with no header. *)
Definition file_request : Http.Request :=
  Http.with_url {| scheme := "file"; host := None; path := "/tmp/x"; query := None |}
    example_request.

(** The example request carrying an [x-amz-security-token] of an earlier signature. *)
Definition token_request : Http.Request :=
  Http.with_headers [("x-amz-security-token", ["stale"])] example_request.

(** The example request with an [x-custom] value that is not visible ASCII. *)
Definition nontext_request : Http.Request :=
  Http.with_headers [("x-custom", [String (ascii_of_nat 200) ""])] example_request.

(** [SigV4Builder::new().date(..).region(..).service(..).credentials(..)] *)
Definition example_builder : SigV4Builder :=
  builder_credentials
    (builder_service (builder_region (builder_date builder_new builder_time) "us-east-1") "service")
    example_credentials.

(** The headers the spec's output contract lets [sign] change. *)
Definition contract_headers : list string :=
  ["host"; "x-amz-date"; "authorization"; "x-amz-security-token"].

(* ================================================================= *)
(** ** Lemmas on the monad *)

Lemma bind_pure {A B} (m : M A) (k : A -> M B) :
  pure_m m -> (forall a, pure_m (k a)) -> pure_m (bind m k).
Proof.
  intros Hm Hk s. unfold bind. specialize (Hm s).
  destruct (m s) as [s' [a|e|p]]; simpl in *; subst; [apply Hk | reflexivity | reflexivity].
Qed.

Lemma bind_no_err {A B} (m : M A) (k : A -> M B) :
  no_err m -> (forall a, no_err (k a)) -> no_err (bind m k).
Proof.
  intros Hm Hk s e. unfold bind. specialize (Hm s e).
  destruct (m s) as [s' [a|e'|p]] eqn:E; simpl in *; try discriminate.
  - apply Hk.
  - congruence.
Qed.

Lemma bind_no_panic {A B} (m : M A) (k : A -> M B) :
  no_panic m -> (forall a, no_panic (k a)) -> no_panic (bind m k).
Proof.
  intros Hm Hk s msg. unfold bind. specialize (Hm s msg).
  destruct (m s) as [s' [a|e'|p]] eqn:E; simpl in *; try discriminate.
  - apply Hk.
  - congruence.
Qed.

Lemma pure_err_keeps {A} (m : M A) : pure_m m -> err_keeps m.
Proof. intros H s e _. apply H. Qed.

Lemma no_err_err_keeps {A} (m : M A) : no_err m -> err_keeps m.
Proof. intros H s e He. exfalso. exact (H s e He). Qed.

Lemma bind_err_keeps {A B} (m : M A) (k : A -> M B) :
  pure_m m -> (forall a, err_keeps (k a)) -> err_keeps (bind m k).
Proof.
  intros Hm Hk s e. unfold bind. specialize (Hm s).
  destruct (m s) as [s' [a|e'|p]] eqn:E; simpl in *; subst; intro H.
  - exact (Hk a _ e H).
  - reflexivity.
  - discriminate.
Qed.

Create HintDb monad.
Lemma ret_pure {A} (a : A) : pure_m (ret a). Proof. intro; reflexivity. Qed.
Lemma get_pure : pure_m get_req. Proof. intro; reflexivity. Qed.
Lemma ok_or_pure {A} (o : option A) e : pure_m (ok_or o e).
Proof. intro; unfold ok_or; destruct o; reflexivity. Qed.
Lemma lift_pure {A} c (x : A + string) : pure_m (lift c x).
Proof. intro; unfold lift; destruct x; reflexivity. Qed.
Lemma lift_lib_pure {A} c (x : lib_result A) : pure_m (lift_lib c x).
Proof. intro; unfold lift_lib; destruct x; reflexivity. Qed.
Lemma to_str_pure v : pure_m (to_str v).
Proof. intro; unfold to_str; destruct (all_bytes _ _); reflexivity. Qed.
Lemma expect_pure {A} (o : option A) msg : pure_m (expect o msg).
Proof. intro; unfold expect; destruct o; reflexivity. Qed.
Lemma ret_no_err {A} (a : A) : no_err (ret a). Proof. intros s e; discriminate. Qed.
Lemma get_no_err : no_err get_req. Proof. intros s e; discriminate. Qed.
Lemma expect_no_err {A} (o : option A) msg : no_err (expect o msg).
Proof. intros s e; unfold expect; destruct o; discriminate. Qed.
Lemma modify_headers_no_err f : no_err (modify_headers f). Proof. intros s e; discriminate. Qed.
Lemma modify_url_no_err f : no_err (modify_url f). Proof. intros s e; discriminate. Qed.
Lemma ret_no_panic {A} (a : A) : no_panic (ret a). Proof. intros s e; discriminate. Qed.
Lemma get_no_panic : no_panic get_req. Proof. intros s e; discriminate. Qed.
Lemma ok_or_no_panic {A} (o : option A) e : no_panic (ok_or o e).
Proof. intros s m; unfold ok_or; destruct o; discriminate. Qed.
Lemma lift_no_panic {A} c (x : A + string) : no_panic (lift c x).
Proof. intros s m; unfold lift; destruct x; discriminate. Qed.
Lemma to_str_no_panic v : no_panic (to_str v).
Proof. intros s m; unfold to_str; destruct (all_bytes _ _); discriminate. Qed.
Lemma modify_headers_no_panic f : no_panic (modify_headers f). Proof. intros s e; discriminate. Qed.
Lemma modify_url_no_panic f : no_panic (modify_url f). Proof. intros s e; discriminate. Qed.
#[export] Hint Resolve bind_pure bind_no_err bind_no_panic ret_pure get_pure ok_or_pure
  lift_pure lift_lib_pure to_str_pure expect_pure ret_no_err get_no_err expect_no_err modify_headers_no_err
  modify_url_no_err ret_no_panic get_no_panic ok_or_no_panic lift_no_panic to_str_no_panic
  modify_headers_no_panic modify_url_no_panic : monad.

Lemma collect_signed_pure hs : pure_m (collect_signed hs).
Proof. induction hs; simpl; auto 10 with monad. Qed.

Lemma collect_signed_no_panic hs : no_panic (collect_signed hs).
Proof. induction hs; simpl; auto 10 with monad. Qed.

Lemma add_headers_no_err hs : no_err (add_headers hs).
Proof. induction hs as [|[n v] t IH]; simpl; auto 10 with monad. Qed.

Lemma add_query_no_err ps : no_err (add_query ps).
Proof. induction ps as [|[k v] t IH]; simpl; auto 10 with monad. Qed.
#[export] Hint Resolve collect_signed_pure collect_signed_no_panic add_headers_no_err
  add_query_no_err : monad.

(* ================================================================= *)
(** ** Header-value validity of what [sign] formats *)

Lemma all_bytes_app p s1 s2 :
  all_bytes p (s1 ++ s2) = all_bytes p s1 && all_bytes p s2.
Proof.
  induction s1 as [|c s1 IH]; [reflexivity|].
  change (p c && all_bytes p (s1 ++ s2) = (p c && all_bytes p s1) && all_bytes p s2).
  rewrite IH. apply andb_assoc.
Qed.

Lemma all_bytes_cons p c s : all_bytes p (String c s) = p c && all_bytes p s.
Proof. reflexivity. Qed.

Lemma byte_of_ascii_of_N x : (x < 256)%N -> byte_of (ascii_of_N x) = Z.of_N x.
Proof. intro H. unfold byte_of. rewrite N_ascii_embedding by exact H. reflexivity. Qed.

(** A digit character is a valid and visible header byte. *)
Lemma digit_ok x : (48 <= x <= 57)%N ->
  header_value_byte (ascii_of_N x) = true /\ visible_ascii (ascii_of_N x) = true.
Proof.
  intro H. unfold header_value_byte, visible_ascii.
  rewrite byte_of_ascii_of_N by lia.
  split; apply orb_true_iff; right; apply andb_true_iff; split;
    try (apply Z.leb_le; lia); try (apply Z.ltb_lt; lia).
  apply negb_true_iff, Z.eqb_neq; lia.
Qed.

Lemma decimal_aux_ok p fuel n acc :
  (forall x, (48 <= x <= 57)%N -> p (ascii_of_N x) = true) ->
  all_bytes p acc = true -> all_bytes p (decimal_aux fuel n acc) = true.
Proof.
  intros Hp. revert n acc. induction fuel as [|fuel IH]; intros n acc Hacc; [exact Hacc|].
  assert (Hd : p (ascii_of_N (48 + N.modulo n 10)) = true).
  { apply Hp. pose proof (N.mod_lt n 10 ltac:(discriminate)). set (k := (n mod 10)%N) in *. lia. }
  cbn [decimal_aux].
  destruct (n <? 10)%N.
  - rewrite all_bytes_cons, Hd, Hacc. reflexivity.
  - apply IH. rewrite all_bytes_cons, Hd, Hacc. reflexivity.
Qed.

Lemma zeros_ok p k : p "0"%char = true -> all_bytes p (zeros k) = true.
Proof. intro H. induction k; [reflexivity|]. cbn [zeros]. rewrite all_bytes_cons, H. exact IHk. Qed.

Lemma pad0_ok p w n :
  (forall x, (48 <= x <= 57)%N -> p (ascii_of_N x) = true) ->
  all_bytes p (pad0 w n) = true.
Proof.
  intro Hp. unfold pad0. rewrite all_bytes_app.
  rewrite zeros_ok by (apply (Hp 48%N); lia).
  apply decimal_aux_ok; [exact Hp | reflexivity].
Qed.

Lemma hv_digit x : (48 <= x <= 57)%N -> header_value_byte (ascii_of_N x) = true.
Proof. intro H. apply (digit_ok x H). Qed.

(** The value formatted at line 180 is always a valid header value. *)
Lemma format_amz_date_ok d : all_bytes header_value_byte (format_amz_date d) = true.
Proof.
  unfold format_amz_date, chrono_year, two.
  destruct ((0 <=? year d) && (year d <=? 9999))%Z; [|destruct (year d <? 0)%Z];
  repeat (rewrite all_bytes_app || rewrite (pad0_ok header_value_byte) by exact hv_digit);
  reflexivity.
Qed.

Lemma set_amz_date_run d r :
  set_amz_date d r =
  (Http.with_headers (hm_insert "x-amz-date" (format_amz_date d) (Http.headers r)) r, Ok tt).
Proof.
  unfold set_amz_date, bind, expect, header_value_from_str.
  rewrite format_amz_date_ok. reflexivity.
Qed.

Lemma ensure_host_run r : url_host_valid (Http.url r) = true -> ensure_host r = (host_step r, Ok tt).
Proof.
  intro H. unfold ensure_host, bind, get_req, host_step, url_host_valid in *.
  destruct (hm_contains_key "host" (Http.headers r)); [reflexivity|].
  unfold expect, header_value_from_str.
  destruct (host (Http.url r)); [rewrite H|]; reflexivity.
Qed.

Lemma ensure_host_cases r :
  ensure_host r = (host_step r, Ok tt) \/ ensure_host r = (r, Panic "invalid header").
Proof.
  unfold ensure_host, bind, get_req, host_step.
  destruct (hm_contains_key "host" (Http.headers r)); [left; reflexivity|].
  unfold expect, header_value_from_str.
  destruct (all_bytes header_value_byte _); [left|right]; reflexivity.
Qed.

(* ================================================================= *)
(** ** Header-map lemmas *)

Lemma hm_insert_absent k v m :
  hm_contains_key k m = false -> hm_insert k v m = (m ++ [(k, [v])])%list.
Proof.
  induction m as [|[n vs] t IH]; [reflexivity|].
  cbn [hm_contains_key existsb fst]. intro H. apply orb_false_iff in H as [H1 H2].
  cbn [hm_insert]. rewrite H1. cbn [app]. f_equal. apply IH. exact H2.
Qed.

Lemma hm_get_remove_all k h m :
  to_lowercase h <> k -> hm_get h (hm_remove_all k m) = hm_get h m.
Proof.
  intro Hk. induction m as [|[n vs] t IH]; [reflexivity|].
  unfold hm_remove_all. cbn [filter fst].
  destruct (String.eqb n k) eqn:E; cbn [negb].
  - apply String.eqb_eq in E. subst n. cbn [hm_get].
    destruct (String.eqb k (to_lowercase h)) eqn:E2.
    + apply String.eqb_eq in E2. congruence.
    + exact IH.
  - cbn [hm_get]. destruct (String.eqb n (to_lowercase h)); [reflexivity|exact IH].
Qed.

Lemma hm_get_insert_other k v h m :
  to_lowercase h <> k -> hm_get h (hm_insert k v m) = hm_get h m.
Proof.
  intro Hk. induction m as [|[n vs] t IH].
  - cbn. destruct (String.eqb k (to_lowercase h)) eqn:E; [|reflexivity].
    apply String.eqb_eq in E. congruence.
  - cbn [hm_insert]. destruct (String.eqb n k) eqn:E.
    + apply String.eqb_eq in E. subst n. cbn [hm_get].
      destruct (String.eqb k (to_lowercase h)) eqn:E2.
      * apply String.eqb_eq in E2. congruence.
      * apply hm_get_remove_all. exact Hk.
    + cbn [hm_get]. destruct (String.eqb n (to_lowercase h)); [reflexivity|exact IH].
Qed.

(** Outside host and x-amz-date, [sign] reads the caller's headers. *)
Lemma hm_get_prepared d r h :
  to_lowercase h <> "host" -> to_lowercase h <> "x-amz-date" ->
  hm_get h (Http.headers (prepared d r)) = hm_get h (Http.headers r).
Proof.
  intros H1 H2. unfold prepared, host_step. cbn [Http.headers Http.with_headers].
  rewrite hm_get_insert_other by exact H2.
  destruct (hm_contains_key "host" (Http.headers r)); [reflexivity|].
  cbn [Http.headers Http.with_headers]. apply hm_get_insert_other. exact H1.
Qed.

Lemma collect_signed_names hs s s' l :
  collect_signed hs s = (s', Ok l) -> map fst l = hs.
Proof.
  revert s s' l. induction hs as [|h t IH]; intros s s' l H.
  - cbn in H. inversion H. reflexivity.
  - cbn [collect_signed] in H. unfold bind, get_req, ok_or, to_str, ret in H.
    destruct (hm_get h (Http.headers s)); [|discriminate].
    destruct (all_bytes visible_ascii s0); [|discriminate].
    destruct (collect_signed t s) as [s1 [a|e|p]] eqn:E; try discriminate.
    inversion H; subst. cbn. f_equal. apply (IH _ _ _ E).
Qed.

Lemma collect_signed_missing hs s h :
  In h hs -> hm_get h (Http.headers s) = None -> exists e, snd (collect_signed hs s) = Err e.
Proof.
  induction hs as [|a t IH]; intros Hin Hget; [destruct Hin|].
  cbn [collect_signed]. unfold bind, get_req, ok_or, to_str, ret.
  destruct Hin as [<-|Hin].
  - rewrite Hget. eexists; reflexivity.
  - destruct (hm_get a (Http.headers s)) as [v|]; [|eexists; reflexivity].
    destruct (all_bytes visible_ascii v); [|eexists; reflexivity].
    destruct (IH Hin Hget) as [e He].
    destruct (collect_signed t s) as [s1 [x|e'|p]]; cbn in He; try discriminate.
    exists e'. reflexivity.
Qed.

Lemma collect_signed_first_missing pre h post s :
  forallb (signed_value_ok s) pre = true -> hm_get h (Http.headers s) = None ->
  snd (collect_signed (pre ++ h :: post) s) =
  Err (BuildError ("missing header " ++ h ++ " which is required for signing")).
Proof.
  induction pre as [|a t IH]; intros Hpre Hget.
  - cbn [app collect_signed]. unfold bind, get_req, ok_or. rewrite Hget. reflexivity.
  - cbn [forallb] in Hpre. apply andb_true_iff in Hpre as [Ha Ht].
    cbn [app collect_signed]. unfold bind, get_req, ok_or, to_str, ret.
    unfold signed_value_ok in Ha.
    destruct (hm_get a (Http.headers s)) as [v|]; [|discriminate].
    rewrite Ha. specialize (IH Ht Hget).
    destruct (collect_signed (t ++ h :: post) s) as [s1 [x|e'|p]]; cbn in IH; try discriminate.
    exact IH.
Qed.

(* ================================================================= *)
(** ** [sign] against any behaviour of the signing library *)

Section AnyLibrary.
Variable signable_new :
  string -> Url -> list (string * string) -> string -> SignableRequest + string.
Variable aws_sign : SignableRequest -> SigningParams -> lib_result SigningInstructions.

Lemma sign_tail_err_keeps c rg sv hs now1 :
  err_keeps (sign_tail signable_new aws_sign c rg sv hs now1).
Proof.
  unfold sign_tail.
  apply bind_err_keeps; [auto with monad|intro p].
  apply bind_err_keeps; [auto with monad|intro l].
  apply bind_err_keeps; [auto with monad|intro q].
  apply bind_err_keeps; [auto with monad|intro sr].
  apply bind_err_keeps; [auto with monad|intro i].
  apply no_err_err_keeps. auto with monad.
Qed.

Lemma sign_tail_collect_err c rg sv hs now1 s e :
  snd (collect_signed hs s) = Err e ->
  snd (sign_tail signable_new aws_sign c rg sv hs now1 s) = Err e.
Proof.
  intro H. unfold sign_tail. unfold bind at 1. cbn [v4_build lift].
  unfold bind at 1. destruct (collect_signed hs s) as [s' [a|e'|p]]; cbn in H; try discriminate.
  cbn. congruence.
Qed.

Lemma sign_configured_run c d rg sv hs now1 r :
  url_host_valid (Http.url r) = true ->
  sign_configured signable_new aws_sign c d rg sv hs now1 r =
  sign_tail signable_new aws_sign c rg sv hs now1 (prepared d r).
Proof.
  intro H. unfold sign_configured. unfold bind at 1. rewrite ensure_host_run by exact H.
  unfold sign_after_host. unfold bind at 1. rewrite set_amz_date_run. reflexivity.
Qed.

Lemma sign_configured_err c d rg sv hs now1 r e :
  snd (sign_configured signable_new aws_sign c d rg sv hs now1 r) = Err e ->
  fst (sign_configured signable_new aws_sign c d rg sv hs now1 r) = prepared d r.
Proof.
  unfold sign_configured, sign_after_host, bind.
  destruct (ensure_host_cases r) as [E|E]; rewrite E; cbv beta iota; [|discriminate].
  rewrite set_amz_date_run. cbv beta iota.
  exact (sign_tail_err_keeps c rg sv hs now1 _ e).
Qed.

Lemma sign_unfold b now0 now1 r :
  sign signable_new aws_sign b now0 now1 r =
  match credentials b, region b, service b with
  | Some c, Some rg, Some sv =>
      sign_configured signable_new aws_sign c (date_or b now0) rg sv (headers b) now1 r
  | None, _, _ => (r, Err (BuildError "aws credentials are required when creating sigv4 request"))
  | Some _, None, _ => (r, Err (BuildError "region is required when creating a sigv4 request"))
  | Some _, Some _, None => (r, Err (BuildError "service is required when creating a sigv4 request"))
  end.
Proof.
  unfold sign, bind, ok_or, date_or.
  destruct (credentials b), (region b), (service b); reflexivity.
Qed.

(** C3 (amended): when [sign] returns [Err], the request it owns (and drops)
    is either untouched (missing credentials, region or service) or carries
    exactly the host and x-amz-date insertions of lines 165-182. *)
Theorem sign_err_state b now0 now1 r e :
  snd (sign signable_new aws_sign b now0 now1 r) = Err e ->
  fst (sign signable_new aws_sign b now0 now1 r) = r \/
  fst (sign signable_new aws_sign b now0 now1 r) = prepared (date_or b now0) r.
Proof.
  rewrite sign_unfold.
  destruct (credentials b), (region b), (service b); intro H; try (left; reflexivity).
  right. apply (sign_configured_err _ _ _ _ _ _ _ e H).
Qed.

(** C5 (amended): an unset credentials, region or service makes [sign]
    return a [BuildError] with the request unchanged; once all three are set,
    no further check is made on them (an empty string goes on to signing). *)
Theorem sign_missing_config b now0 now1 r :
  ((credentials b = None \/ region b = None \/ service b = None) ->
   exists msg, sign signable_new aws_sign b now0 now1 r = (r, Err (BuildError msg))) /\
  (forall c rg sv, credentials b = Some c -> region b = Some rg -> service b = Some sv ->
   sign signable_new aws_sign b now0 now1 r =
   sign_configured signable_new aws_sign c (date_or b now0) rg sv (headers b) now1 r).
Proof.
  rewrite sign_unfold. split.
  - intros [H|[H|H]]; rewrite H;
      destruct (credentials b), (region b), (service b); try discriminate; eexists; reflexivity.
  - intros c rg sv -> -> ->. reflexivity.
Qed.

(** C6 (amended): a sign-set name other than host and x-amz-date that the
    request lacks makes [sign] return [Err]; with credentials, region and
    service set and every earlier sign-set entry present with a text value,
    the error is the [BuildError] naming that header. *)
Theorem sign_missing_signed_header b now0 now1 r h :
  url_host_valid (Http.url r) = true ->
  to_lowercase h <> "host" -> to_lowercase h <> "x-amz-date" ->
  hm_get h (Http.headers r) = None ->
  (In h (headers b) -> exists e, snd (sign signable_new aws_sign b now0 now1 r) = Err e) /\
  (forall pre post, headers b = (pre ++ h :: post)%list ->
   credentials b <> None -> region b <> None -> service b <> None ->
   forallb (signed_value_ok (prepared (date_or b now0) r)) pre = true ->
   snd (sign signable_new aws_sign b now0 now1 r) =
   Err (BuildError ("missing header " ++ h ++ " which is required for signing"))).
Proof.
  intros Hurl Hh Hd Hget.
  assert (Hp : hm_get h (Http.headers (prepared (date_or b now0) r)) = None)
    by (rewrite hm_get_prepared by assumption; exact Hget).
  rewrite sign_unfold. split.
  - intro Hin.
    destruct (credentials b), (region b), (service b); try (eexists; reflexivity).
    rewrite sign_configured_run by exact Hurl.
    destruct (collect_signed_missing _ _ _ Hin Hp) as [e He].
    exists e. apply sign_tail_collect_err. exact He.
  - intros pre post Hhs Hc Hr Hs Hpre.
    destruct (credentials b); [|congruence]. destruct (region b); [|congruence].
    destruct (service b); [|congruence].
    rewrite sign_configured_run by exact Hurl.
    apply sign_tail_collect_err. rewrite Hhs.
    apply collect_signed_first_missing; assumption.
Qed.

(** C10 (amended): with credentials, region and service set, a request
    without a host header whose URL has no host gets an empty [host] header
    appended, and [sign] carries on with line 174 on that request; the host
    step raises no error.  Whether signing then succeeds is up to the
    signing library. *)
Theorem sign_hostless_url b now0 now1 r c rg sv :
  credentials b = Some c -> region b = Some rg -> service b = Some sv ->
  hm_contains_key "host" (Http.headers r) = false -> host (Http.url r) = None ->
  sign signable_new aws_sign b now0 now1 r =
  sign_after_host signable_new aws_sign c (date_or b now0) rg sv (headers b) now1
    (Http.with_headers (Http.headers r ++ [("host", [""])])%list r).
Proof.
  intros Hc Hr Hs Hno Hhost.
  rewrite sign_unfold, Hc, Hr, Hs.
  unfold sign_configured. unfold bind at 1.
  unfold ensure_host, bind, get_req. rewrite Hno, Hhost.
  unfold expect, header_value_from_str, modify_headers. cbn.
  rewrite hm_insert_absent by exact Hno. reflexivity.
Qed.

Lemma sign_tail_ok c rg sv hs now1 s r' :
  snd (sign_tail signable_new aws_sign c rg sv hs now1 s) = Ok r' ->
  exists l sr i s2,
    collect_signed hs s = (s, Ok l) /\
    signable_new (Http.method s) (Http.url s) l (signable_body s) = inl sr /\
    aws_sign sr (tail_params c rg sv now1) = LibOk i /\
    add_headers (si_headers i) s = (s2, Ok tt) /\
    add_query (si_params i) s2 = (r', Ok tt).
Proof.
  unfold sign_tail, bind. cbn [v4_build lift]. cbv beta iota.
  pose proof (collect_signed_pure hs s) as Hp.
  destruct (collect_signed hs s) as [s1 [l|e|m]] eqn:Ecol; cbn in Hp; subst s1;
    cbv beta iota; [|discriminate|discriminate].
  unfold get_req, lift, lift_lib. cbv beta iota.
  destruct (signable_new _ _ _ _) as [sr|err] eqn:Esr; cbv beta iota; [|discriminate].
  destruct (aws_sign sr _) as [i|err|m] eqn:Ei; cbv beta iota; [|discriminate|discriminate].
  destruct (add_headers (si_headers i) s) as [s2 [[]|e|m]] eqn:Eadd; cbv beta iota;
    [|discriminate|discriminate].
  pose proof (add_query_no_err (si_params i) s2) as Hq.
  destruct (add_query (si_params i) s2) as [s3 [[]|e|m]] eqn:Eq; cbv beta iota;
    [|discriminate|discriminate].
  intro H. cbn in H. inversion H; subst.
  exists l, sr, i, s2. repeat split; assumption.
Qed.

Lemma add_query_no_panic ps : no_panic (add_query ps).
Proof.
  induction ps as [|[k v] t IH]; intros s msg; [discriminate|].
  cbn [add_query]. unfold bind, modify_url. cbv beta iota. apply IH.
Qed.

Lemma sign_tail_panic c rg sv hs now1 s msg :
  snd (sign_tail signable_new aws_sign c rg sv hs now1 s) = Panic msg ->
  (exists l sr, signable_new (Http.method s) (Http.url s) l (signable_body s) = inl sr /\
                aws_sign sr (tail_params c rg sv now1) = LibPanic msg) \/
  (exists sr i, aws_sign sr (tail_params c rg sv now1) = LibOk i /\
                snd (add_headers (si_headers i) s) = Panic msg).
Proof.
  unfold sign_tail, bind. cbn [v4_build lift]. cbv beta iota.
  pose proof (collect_signed_pure hs s) as Hp.
  pose proof (collect_signed_no_panic hs s) as Hn.
  destruct (collect_signed hs s) as [s1 [l|e|m]] eqn:Ecol; cbn in Hp, Hn; subst s1;
    cbv beta iota; [|discriminate|exfalso; exact (Hn m eq_refl)].
  unfold get_req, lift, lift_lib. cbv beta iota.
  destruct (signable_new _ _ _ _) as [sr|err] eqn:Esr; cbv beta iota; [|discriminate].
  destruct (aws_sign sr _) as [i|err|m] eqn:Ei; cbv beta iota;
    [|discriminate|intro H; cbn in H; injection H as <-; left; exists l, sr; split; assumption].
  intro H; right; revert H.
  destruct (add_headers (si_headers i) s) as [s2 [[]|e|m]] eqn:Eadd; cbv beta iota.
  - pose proof (add_query_no_panic (si_params i) s2 msg) as Hq.
    destruct (add_query (si_params i) s2) as [s3 [[]|e|m]]; cbv beta iota; try discriminate.
    intro H. cbn in Hq, H. injection H as E. subst. exfalso. exact (Hq eq_refl).
  - discriminate.
  - intro H. cbn in H. injection H as E. subst.
    exists sr, i. split; [exact Ei|]. rewrite Eadd. reflexivity.
Qed.

End AnyLibrary.

(** C7: every builder a caller can obtain signs host and x-amz-date, and the
    header list [sign] submits for signing names both. *)
Theorem sign_set_has_host_date b :
  reachable b ->
  In "host" (headers b) /\ In "x-amz-date" (headers b) /\
  (forall s s' l, collect_signed (headers b) s = (s', Ok l) ->
   In "host" (map fst l) /\ In "x-amz-date" (map fst l)).
Proof.
  intro Hr.
  assert (H : In "host" (headers b) /\ In "x-amz-date" (headers b)).
  { induction Hr as [| b h _ [IH1 IH2] | b d _ IH | b x _ IH | b x _ IH | b x _ IH];
      cbn [headers builder_new builder_header builder_date builder_region builder_service
           builder_credentials signed_headers_default signed_headers_push]; auto.
    - split; [left|right; left]; reflexivity.
    - split; apply in_or_app; left; assumption. }
  destruct H as [H1 H2]. split; [exact H1|split; [exact H2|]].
  intros s s' l E. rewrite (collect_signed_names _ _ _ _ E). split; assumption.
Qed.

(* ================================================================= *)
(** ** Concrete runs of [sign] with the library model *)

(** The model reproduces AWS's published [get-vanilla] SigV4 test vector. *)
Example aws_get_vanilla :
  AwsSigv4.sign
    {| sr_method := "GET"; sr_uri := example_url;
       sr_headers := [("Host", "example.amazonaws.com"); ("X-Amz-Date", "20150830T123600Z")];
       sr_body := "" |}
    {| identity := example_credentials; sp_region := "us-east-1"; sp_name := "service";
       sp_time := builder_time; settings := signing_settings_default |}
  = LibOk {| si_headers :=
             [("x-amz-date", "20150830T123600Z");
              ("authorization",
               "AWS4-HMAC-SHA256 Credential=AKIDEXAMPLE/20150830/us-east-1/service/aws4_request, SignedHeaders=host;x-amz-date, Signature=5fa00fa31553b73ebf1942676e86291e8372ff2a2260956d9b8aae1d763fbf31")];
           si_params := [] |}.
Proof. vm_compute. reflexivity. Qed.

(** C1 (code bug): with the builder's date fixed, two signing calls at
    different wall-clock times give different Authorization values, since
    line 192 signs with [SystemTime::now()] instead of the builder's date. *)
Theorem sign_authorization_depends_on_clock :
  header_of (sign_result example_builder clock_a clock_a example_request) "authorization" <>
  header_of (sign_result example_builder clock_b clock_b example_request) "authorization".
Proof. vm_compute. discriminate. Qed.

(** C4 (code bug): the signed request's x-amz-date is the clock's time,
    not the builder's date, and line 180 formats the builder's date without
    the [T] separator. *)
Theorem sign_amz_date_is_clock :
  header_of (sign_result example_builder clock_a clock_a example_request) "x-amz-date"
  = Some "20240101T000000Z" /\
  format_amz_date builder_time = "20150830123600Z".
Proof. split; vm_compute; reflexivity. Qed.

(** C2 (counterexample): a successful [sign] also adds x-amz-content-sha256,
    outside host, x-amz-date, authorization and x-amz-security-token. *)
Lemma sign_adds_content_sha256 :
  exists r', sign_result example_builder clock_a clock_a example_request = Ok r' /\
  headers_outside contract_headers (Http.headers r') <>
  headers_outside contract_headers (Http.headers example_request).
Proof. vm_compute. eexists. split; [reflexivity|discriminate]. Qed.

(** C3 (counterexample): [sign] fails on a missing signed header after it has
    inserted host and x-amz-date into the request it owns. *)
Lemma sign_err_after_mutation :
  exists e, sign_aws (builder_header example_builder "x-custom") clock_a clock_a example_request
            = (prepared builder_time example_request, Err e) /\
  prepared builder_time example_request <> example_request.
Proof. vm_compute. eexists. split; [reflexivity|discriminate]. Qed.

(** C5 (counterexample): an empty secret key, region or service is signed. *)
Lemma sign_accepts_empty_fields :
  (exists r1, sign_result (builder_credentials example_builder
                {| access_key_id := "AKIDEXAMPLE"; secret_access_key := "";
                   session_token := None |}) clock_a clock_a example_request = Ok r1) /\
  (exists r2, sign_result (builder_region example_builder "") clock_a clock_a example_request
              = Ok r2) /\
  (exists r3, sign_result (builder_service example_builder "") clock_a clock_a example_request
              = Ok r3).
Proof. vm_compute. split; [|split]; eexists; reflexivity. Qed.

(** C6 (counterexample): host is in the sign-set and absent from the request,
    yet [sign] succeeds. *)
Lemma sign_ok_without_host_header :
  In "host" (headers example_builder) /\ hm_get "host" (Http.headers example_request) = None /\
  exists r', sign_result example_builder clock_a clock_a example_request = Ok r'.
Proof. split; [left; reflexivity|split; [reflexivity|]]. vm_compute. eexists; reflexivity. Qed.

(** C9 (counterexample): a line feed in the region reaches the Authorization
    value and the [expect] of line 233 panics. *)
Lemma sign_panics_on_control_char_region :
  sign_result (builder_region example_builder ("us-east-1" ++ nl)) clock_a clock_a example_request
  = Panic "aws signature invalid".
Proof. vm_compute. reflexivity. Qed.

(** C10 (counterexample): for a request without a host header whose URL has
    no host, [sign] inserts the empty host value and goes on, yet signing
    then fails: [SignableRequest::new] rejects [file:///tmp/x], and the
    library panics on the authority-only URI [mailto:someone@example.com]. *)
Lemma sign_hostless_url_fails :
  hm_contains_key "host" (Http.headers file_request) = false /\
  host (Http.url file_request) = None /\
  sign_result example_builder clock_a clock_a file_request = Err (SigningErr "invalid URI") /\
  hm_contains_key "host" (Http.headers hostless_request) = false /\
  host (Http.url hostless_request) = None /\
  sign_result example_builder clock_a clock_a hostless_request
  = Panic "adding query should not invalidate URI".
Proof. vm_compute. repeat split. Qed.

(* ================================================================= *)
(** ** The frame of a successful [sign] *)

Lemma add_headers_ok hs s s2 :
  add_headers hs s = (s2, Ok tt) ->
  Http.method s2 = Http.method s /\ Http.url s2 = Http.url s /\ Http.body s2 = Http.body s /\
  Http.headers s2 = hm_apply hs (Http.headers s).
Proof.
  revert s. induction hs as [|[n v] t IH]; intros s H.
  - cbn in H. inversion H; subst. repeat split.
  - cbn [add_headers] in H. unfold bind, expect, header_name_from_str, header_value_from_str in H.
    destruct (negb (String.eqb n "") && all_bytes token_char n); [|discriminate].
    destruct (all_bytes header_value_byte v); [|discriminate].
    unfold modify_headers in H. cbv beta iota in H.
    destruct (IH _ H) as (H1 & H2 & H3 & H4).
    cbn in H1, H2, H3, H4. repeat split; try assumption.
Qed.

Lemma add_query_nil s : add_query [] s = (s, Ok tt).
Proof. reflexivity. Qed.

Lemma in_names_existsb k names : In k names -> existsb (String.eqb k) names = true.
Proof.
  intro H. apply existsb_exists. exists k. split; [exact H|apply String.eqb_refl].
Qed.

Lemma existsb_in_names k names : existsb (String.eqb k) names = true -> In k names.
Proof.
  intro H. apply existsb_exists in H. destruct H as (x & Hx & E).
  apply String.eqb_eq in E. subst x. exact Hx.
Qed.

Lemma headers_outside_cons_in names k x t :
  In k names -> headers_outside names ((k, x) :: t) = headers_outside names t.
Proof.
  intro Hk. unfold headers_outside. cbn [filter fst].
  rewrite in_names_existsb by exact Hk. reflexivity.
Qed.

Lemma headers_outside_remove_all names k m :
  In k names -> headers_outside names (hm_remove_all k m) = headers_outside names m.
Proof.
  intro Hk. induction m as [|[n vs] t IH]; [reflexivity|].
  unfold hm_remove_all in *. cbn [filter fst].
  destruct (String.eqb n k) eqn:E; cbn [negb].
  - apply String.eqb_eq in E. subst n. rewrite headers_outside_cons_in by exact Hk. exact IH.
  - unfold headers_outside. cbn [filter fst].
    destruct (negb (existsb (String.eqb n) names)); [f_equal|]; exact IH.
Qed.

Lemma headers_outside_insert names k v m :
  In k names -> headers_outside names (hm_insert k v m) = headers_outside names m.
Proof.
  intro Hk. induction m as [|[n vs] t IH].
  - unfold headers_outside. cbn. rewrite in_names_existsb by exact Hk. reflexivity.
  - cbn [hm_insert]. destruct (String.eqb n k) eqn:E.
    + apply String.eqb_eq in E. subst n.
      rewrite !headers_outside_cons_in by exact Hk.
      apply headers_outside_remove_all. exact Hk.
    + unfold headers_outside in *. cbn [filter fst].
      destruct (negb (existsb (String.eqb n) names)); [f_equal|]; exact IH.
Qed.

Lemma headers_outside_apply names hs m :
  Forall (fun e => In (to_lowercase (fst e)) names) hs ->
  headers_outside names (hm_apply hs m) = headers_outside names m.
Proof.
  revert m. induction hs as [|e t IH]; intros m H; [reflexivity|].
  inversion H as [|? ? He Ht]; subst. unfold hm_apply. cbn [fold_left].
  fold (hm_apply t (hm_insert (to_lowercase (fst e)) (snd e) m)).
  rewrite IH by exact Ht. apply headers_outside_insert. exact He.
Qed.

Lemma headers_outside_prepared names d r :
  In "host" names -> In "x-amz-date" names ->
  headers_outside names (Http.headers (prepared d r)) = headers_outside names (Http.headers r).
Proof.
  intros Hh Hd. unfold prepared, host_step. cbn [Http.headers Http.with_headers].
  rewrite headers_outside_insert by exact Hd.
  destruct (hm_contains_key "host" (Http.headers r)); [reflexivity|].
  apply headers_outside_insert. exact Hh.
Qed.

Lemma prepared_fields d r :
  Http.method (prepared d r) = Http.method r /\ Http.url (prepared d r) = Http.url r /\
  Http.body (prepared d r) = Http.body r.
Proof.
  unfold prepared, host_step. destruct (hm_contains_key "host" (Http.headers r)); repeat split.
Qed.

Lemma aws_sign_instructions sr p i :
  AwsSigv4.sign sr p = LibOk i ->
  si_params i = [] /\
  exists auth, si_headers i =
    AwsSigv4.instruction_headers p (AwsSigv4.format_date_time (sp_time p)) auth
      (AwsSigv4.payload_hash (sr_body sr)).
Proof.
  unfold AwsSigv4.sign. cbv zeta.
  destruct (AwsSigv4.canonical_headers _ _ _ _); [|discriminate].
  destruct (host (sr_uri sr)); intro H; inversion H; subst.
  split; [reflexivity|eexists; reflexivity].
Qed.

Lemma instruction_names c rg sv now1 a au ph :
  Forall (fun e => In (to_lowercase (fst e))
            (["host"; "x-amz-date"; "authorization"; "x-amz-content-sha256"]
             ++ match session_token c with Some _ => ["x-amz-security-token"] | None => [] end))
    (AwsSigv4.instruction_headers (tail_params c rg sv now1) a au ph).
Proof.
  unfold AwsSigv4.instruction_headers, tail_params. cbn [identity settings payload_checksum_kind].
  destruct (session_token c); cbn [app];
    repeat (apply Forall_cons; [apply existsb_in_names; vm_compute; reflexivity|]);
    apply Forall_nil.
Qed.

Lemma sign_aws_ok_run b now0 now1 r r' :
  sign_result b now0 now1 r = Ok r' ->
  exists c rg sv l sr i,
    credentials b = Some c /\ region b = Some rg /\ service b = Some sv /\
    collect_signed (headers b) (prepared (date_or b now0) r)
      = (prepared (date_or b now0) r, Ok l) /\
    AwsSigv4.signable_new (Http.method (prepared (date_or b now0) r))
      (Http.url (prepared (date_or b now0) r)) l (signable_body (prepared (date_or b now0) r))
      = inl sr /\
    AwsSigv4.sign sr (tail_params c rg sv now1) = LibOk i /\
    add_headers (si_headers i) (prepared (date_or b now0) r) = (r', Ok tt).
Proof.
  unfold sign_result, sign_aws. rewrite sign_unfold.
  destruct (credentials b) as [c|] eqn:Hc; [|discriminate].
  destruct (region b) as [rg|] eqn:Hr; [|discriminate].
  destruct (service b) as [sv|] eqn:Hs; [|discriminate].
  unfold sign_configured. unfold bind at 1.
  destruct (ensure_host_cases r) as [E|E]; rewrite E; cbv beta iota; [|discriminate].
  unfold sign_after_host. unfold bind at 1. rewrite set_amz_date_run. cbv beta iota.
  fold (prepared (date_or b now0) r).
  intro H. destruct (sign_tail_ok _ _ _ _ _ _ _ _ _ H) as (l & sr & i & s2 & H1 & H2 & H3 & H4 & H5).
  destruct (aws_sign_instructions _ _ _ H3) as [Hq _].
  rewrite Hq, add_query_nil in H5. inversion H5; subst s2.
  exists c, rg, sv, l, sr, i. repeat split; assumption.
Qed.

(** C2 (amended): on success, [sign] returns the input request with the same
    method, URL and body, and with the same headers, in the same order and
    with the same values, apart from host, x-amz-date, authorization,
    x-amz-content-sha256 and (with a session token) x-amz-security-token. *)
Theorem sign_frame b now0 now1 r r' :
  sign_result b now0 now1 r = Ok r' ->
  Http.method r' = Http.method r /\ Http.url r' = Http.url r /\ Http.body r' = Http.body r /\
  headers_outside (touched_headers b) (Http.headers r') =
  headers_outside (touched_headers b) (Http.headers r).
Proof.
  intro H. destruct (sign_aws_ok_run _ _ _ _ _ H)
    as (c & rg & sv & l & sr & i & Hc & Hr & Hs & Hcol & Hsr & Hi & Hadd).
  destruct (add_headers_ok _ _ _ Hadd) as (H1 & H2 & H3 & H4).
  destruct (prepared_fields (date_or b now0) r) as (P1 & P2 & P3).
  rewrite H1, H2, H3, P1, P2, P3. repeat split.
  destruct (aws_sign_instructions _ _ _ Hi) as [_ [auth Hh]].
  rewrite H4, Hh. unfold touched_headers. rewrite Hc.
  rewrite headers_outside_apply by apply instruction_names.
  apply headers_outside_prepared; cbn; tauto.
Qed.

(* ================================================================= *)
(** ** No panic when the configured text is valid *)

Lemma all_bytes_string_of_list p l :
  all_bytes p (string_of_list_ascii l) = forallb p l.
Proof. unfold all_bytes. rewrite list_ascii_of_string_of_list_ascii. reflexivity. Qed.

Lemma hex_digit_ok n : header_value_byte (hex_digit n) = true.
Proof.
  unfold hex_digit.
  assert (H : forall k, header_value_byte
            (nth k (list_ascii_of_string "0123456789abcdef") "0"%char) = true).
  { intro k. do 16 (destruct k as [|k]; [reflexivity|]). destruct k; reflexivity. }
  apply H.
Qed.

Lemma hex_encode_ok bs : all_bytes header_value_byte (hex_encode bs) = true.
Proof.
  unfold hex_encode. rewrite all_bytes_string_of_list.
  induction bs as [|b t IH]; [reflexivity|]. cbn [flat_map app forallb].
  rewrite !hex_digit_ok. exact IH.
Qed.

Lemma lower_token_ok c : token_char c = true -> header_value_byte (lower_ascii c) = true.
Proof.
  revert c. assert (H : forall c, implb (token_char c) (header_value_byte (lower_ascii c)) = true).
  { intros [b0 b1 b2 b3 b4 b5 b6 b7].
    destruct b0, b1, b2, b3, b4, b5, b6, b7; reflexivity. }
  intros c Hc. specialize (H c). rewrite Hc in H. exact H.
Qed.

Lemma to_lowercase_ok s :
  all_bytes token_char s = true -> all_bytes header_value_byte (to_lowercase s) = true.
Proof.
  unfold to_lowercase. rewrite all_bytes_string_of_list. unfold all_bytes.
  induction (list_ascii_of_string s) as [|c t IH]; [reflexivity|].
  cbn [map forallb]. intro H. apply andb_true_iff in H. destruct H as [H1 H2].
  rewrite lower_token_ok by exact H1. apply IH. exact H2.
Qed.

Lemma header_name_ok s n : header_name_from_str s = Some n -> all_bytes header_value_byte n = true.
Proof.
  unfold header_name_from_str.
  destruct (negb (String.eqb s "") && all_bytes token_char s) eqn:E; [|discriminate].
  intro H. inversion H; subst. apply andb_true_iff in E. apply to_lowercase_ok. apply E.
Qed.

Lemma header_value_ok s v : header_value_from_str s = Some v -> all_bytes header_value_byte v = true.
Proof.
  unfold header_value_from_str. destruct (all_bytes header_value_byte s) eqn:E; [|discriminate].
  intro H. inversion H; subst. exact E.
Qed.

Lemma all_bytes_concat p sep l :
  all_bytes p sep = true -> Forall (fun t => all_bytes p t = true) l ->
  all_bytes p (String.concat sep l) = true.
Proof.
  intros Hs Hl. induction Hl as [|x t Hx Ht IH]; [reflexivity|].
  destruct t as [|y t'].
  - exact Hx.
  - change (all_bytes p (x ++ sep ++ String.concat sep (y :: t')) = true).
    rewrite !all_bytes_app, Hx, Hs, IH. reflexivity.
Qed.

Lemma normalize_headers_ok hs hs' :
  AwsSigv4.normalize_headers hs = inl hs' -> Forall name_ok hs'.
Proof.
  revert hs'. induction hs as [|[n v] t IH]; intros hs' H.
  - inversion H. constructor.
  - cbn [AwsSigv4.normalize_headers] in H.
    destruct (header_name_from_str (to_lowercase n)) as [n'|] eqn:E1;
      destruct (header_value_from_str (AwsSigv4.trim_all v)) as [v'|] eqn:E2;
      try discriminate.
    destruct (AwsSigv4.normalize_headers t) as [t'|e] eqn:E3; [|discriminate].
    inversion H; subst. constructor.
    + unfold name_ok. cbn [fst]. exact (header_name_ok _ _ E1).
    + apply IH. reflexivity.
Qed.

Lemma set_header_ok n v hs :
  all_bytes header_value_byte n = true -> Forall name_ok hs ->
  Forall name_ok (AwsSigv4.set_header n v hs).
Proof.
  intros Hn Hs. unfold AwsSigv4.set_header. apply Forall_app. split.
  - apply Forall_forall. intros x Hx. apply filter_In in Hx.
    exact (proj1 (Forall_forall _ _) Hs x (proj1 Hx)).
  - constructor; [exact Hn|constructor].
Qed.

Lemma insert_by_ok {A} (P : A -> Prop) le x l :
  P x -> Forall P l -> Forall P (AwsSigv4.insert_by le x l).
Proof.
  intros Hx Hl. induction Hl as [|y t Hy Ht IH]; cbn [AwsSigv4.insert_by].
  - constructor; [exact Hx|constructor].
  - destruct (le x y); repeat constructor; assumption.
Qed.

Lemma sort_by_ok {A} (P : A -> Prop) le l : Forall P l -> Forall P (AwsSigv4.sort_by le l).
Proof.
  intro Hl. induction Hl as [|y t Hy Ht IH]; [constructor|].
  unfold AwsSigv4.sort_by. cbn [fold_right]. apply insert_by_ok; assumption.
Qed.

Lemma group_sorted_ok hs : Forall name_ok hs -> Forall name_ok (AwsSigv4.group_sorted hs).
Proof.
  intro H. induction H as [|[n v] t Hx Ht IH]; [constructor|].
  cbn [AwsSigv4.group_sorted].
  destruct (AwsSigv4.group_sorted t) as [|[n' v'] t'] eqn:E.
  - repeat constructor. exact Hx.
  - inversion IH as [|? ? Hy Ht']; subst.
    destruct (String.eqb n n'); repeat constructor; assumption.
Qed.

Lemma canonical_headers_ok sr p a ph hs :
  AwsSigv4.canonical_headers sr p a ph = inl hs ->
  Forall name_ok hs /\
  (forall t, session_token (identity p) = Some t -> all_bytes header_value_byte t = true).
Proof.
  unfold AwsSigv4.canonical_headers. cbv zeta.
  destruct (AwsSigv4.normalize_headers (sr_headers sr)) as [hs0|e] eqn:En; [|discriminate].
  pose proof (normalize_headers_ok _ _ En) as H0.
  set (hs1 := if existsb (fun e => String.eqb (fst e) "host") hs0 then hs0
              else match host (sr_uri sr) with
                   | Some h => AwsSigv4.set_header "host" h hs0 | None => hs0 end).
  assert (H1 : Forall name_ok hs1).
  { unfold hs1. destruct (existsb _ hs0); [exact H0|].
    destruct (host (sr_uri sr)); [apply set_header_ok; [reflexivity|exact H0]|exact H0]. }
  assert (H2 : Forall name_ok (AwsSigv4.set_header "x-amz-date" a hs1))
    by (apply set_header_ok; [reflexivity|exact H1]).
  destruct (session_token (identity p)) as [t|] eqn:Et.
  - destruct (header_value_from_str t) as [t'|] eqn:Ev; [|discriminate].
    assert (H3 : Forall name_ok (AwsSigv4.set_header "x-amz-security-token" t'
                                   (AwsSigv4.set_header "x-amz-date" a hs1)))
      by (apply set_header_ok; [reflexivity|exact H2]).
    intro H. split.
    + destruct (payload_checksum_kind (settings p)); inversion H; subst;
        apply group_sorted_ok, sort_by_ok;
        [|apply set_header_ok; [reflexivity|]]; exact H3.
    + intros t0 E. inversion E; subst. unfold header_value_from_str in Ev.
      destruct (all_bytes header_value_byte t0); [reflexivity|discriminate].
  - intro H. split.
    + destruct (payload_checksum_kind (settings p)); inversion H; subst;
        apply group_sorted_ok, sort_by_ok;
        [|apply set_header_ok; [reflexivity|]]; exact H2.
    + discriminate.
Qed.

Lemma year4_ok y : all_bytes header_value_byte (AwsSigv4.year4 y) = true.
Proof.
  unfold AwsSigv4.year4. destruct (0 <=? y)%Z.
  - apply pad0_ok. exact hv_digit.
  - rewrite all_bytes_app, (pad0_ok header_value_byte) by exact hv_digit. reflexivity.
Qed.

Lemma format_date_time_ok t : all_bytes header_value_byte (AwsSigv4.format_date_time t) = true.
Proof.
  unfold AwsSigv4.format_date_time, two.
  repeat (rewrite all_bytes_app || rewrite year4_ok
          || rewrite (pad0_ok header_value_byte) by exact hv_digit).
  reflexivity.
Qed.

Lemma format_date_ok t : all_bytes header_value_byte (AwsSigv4.format_date t) = true.
Proof.
  unfold AwsSigv4.format_date, two.
  repeat (rewrite all_bytes_app || rewrite year4_ok
          || rewrite (pad0_ok header_value_byte) by exact hv_digit).
  reflexivity.
Qed.

Lemma add_headers_valid hs s :
  Forall entry_ok hs -> exists s', add_headers hs s = (s', Ok tt).
Proof.
  intro H. revert s. induction H as [|[n v] t [Hn Hv] Ht IH]; intro s.
  - exists s. reflexivity.
  - cbn [add_headers]. unfold bind, expect. cbn [fst snd] in Hn, Hv.
    destruct (header_name_from_str n) as [n'|]; [|congruence].
    unfold header_value_from_str. rewrite Hv. unfold modify_headers. cbv beta iota.
    apply IH.
Qed.

Lemma aws_sign_entries_ok sr c rg sv now1 i :
  all_bytes header_value_byte (access_key_id c) = true ->
  all_bytes header_value_byte rg = true -> all_bytes header_value_byte sv = true ->
  AwsSigv4.sign sr (tail_params c rg sv now1) = LibOk i ->
  Forall entry_ok (si_headers i).
Proof.
  intros Hk Hr Hs. unfold AwsSigv4.sign. cbv zeta.
  destruct (AwsSigv4.canonical_headers _ _ _ _) as [hs|e] eqn:Ec; [|discriminate].
  destruct (canonical_headers_ok _ _ _ _ _ Ec) as [Hhs Htok].
  destruct (host (sr_uri sr)); [|discriminate].
  intro H. inversion H; subst. clear H. cbn [si_headers].
  unfold AwsSigv4.instruction_headers. cbn [tail_params identity settings payload_checksum_kind] in *.
  assert (Hsig : all_bytes header_value_byte (AwsSigv4.signed_headers_string hs) = true).
  { unfold AwsSigv4.signed_headers_string. apply all_bytes_concat; [reflexivity|].
    apply Forall_map. exact Hhs. }
  assert (Hauth : forall sig, all_bytes header_value_byte sig = true ->
            all_bytes header_value_byte
              (AwsSigv4.authorization (tail_params c rg sv now1) hs sig) = true).
  { intros sig Hg. unfold AwsSigv4.authorization, AwsSigv4.credential_scope, tail_params.
    cbn [identity sp_region sp_name sp_time].
    repeat (rewrite all_bytes_app || rewrite format_date_ok).
    rewrite Hk, Hr, Hs, Hsig, Hg. reflexivity. }
  destruct (session_token c) as [t|] eqn:Et; cbn [app];
    repeat constructor; cbn [fst snd];
    first [discriminate | apply format_date_time_ok | apply Hauth, hex_encode_ok
          | apply hex_encode_ok | apply Htok; reflexivity].
Qed.

Lemma signable_new_uri m u l bd sr :
  AwsSigv4.signable_new m u l bd = inl sr -> sr_uri sr = u.
Proof.
  unfold AwsSigv4.signable_new. destruct (AwsSigv4.uri_parses u); intro H; inversion H.
  reflexivity.
Qed.

(** The library model panics only on a URI without a host. *)
Lemma aws_sign_no_panic_hosted sr p h msg :
  host (sr_uri sr) = Some h -> AwsSigv4.sign sr p <> LibPanic msg.
Proof.
  intro Hh. unfold AwsSigv4.sign. cbv zeta.
  destruct (AwsSigv4.canonical_headers _ _ _ _); [rewrite Hh|]; discriminate.
Qed.

Lemma url_has_valid_host_valid u : url_has_valid_host u = true -> url_host_valid u = true.
Proof. unfold url_has_valid_host, url_host_valid. destruct (host u); [exact id|discriminate]. Qed.

(** C9 (amended): when the URL has a host that serialises to a valid header
    value and the access key id, region and service configured in the
    builder consist of header-value bytes, [sign] returns [Ok] or [Err] and
    never panics. *)
Theorem sign_no_panic_valid_text b now0 now1 r msg :
  url_has_valid_host (Http.url r) = true -> builder_text_valid b = true ->
  sign_result b now0 now1 r <> Panic msg.
Proof.
  intros Hh Hb. pose proof (url_has_valid_host_valid _ Hh) as Hu.
  unfold builder_text_valid, text_valid in Hb.
  unfold sign_result, sign_aws. rewrite sign_unfold.
  destruct (credentials b) as [c|]; [|discriminate].
  destruct (region b) as [rg|]; [|discriminate].
  destruct (service b) as [sv|]; [|discriminate].
  cbn [option_map] in Hb. apply andb_true_iff in Hb. destruct Hb as [Hb Hs].
  apply andb_true_iff in Hb. destruct Hb as [Hk Hr].
  unfold sign_configured. unfold bind at 1. rewrite (ensure_host_run r Hu). cbv beta iota.
  unfold sign_after_host. unfold bind at 1. rewrite set_amz_date_run. cbv beta iota.
  fold (prepared (date_or b now0) r).
  intro H. destruct (sign_tail_panic _ _ _ _ _ _ _ _ _ H)
    as [(l & sr & Hsr & Hi) | (sr & i & Hi & Hp)].
  - apply signable_new_uri in Hsr.
    rewrite (proj1 (proj2 (prepared_fields (date_or b now0) r))) in Hsr.
    unfold url_has_valid_host in Hh. destruct (host (Http.url r)) as [h|] eqn:Eh; [|discriminate].
    rewrite <- Hsr in Eh. exact (aws_sign_no_panic_hosted _ _ _ _ Eh Hi).
  - destruct (add_headers_valid (si_headers i) (prepared (date_or b now0) r)) as [s' Hs'].
    + exact (aws_sign_entries_ok _ _ _ _ _ _ Hk Hr Hs Hi).
    + rewrite Hs' in Hp. discriminate.
Qed.

(* ================================================================= *)
(** ** The payload of a request without bytes *)

(** C8: when the request has no body, or a body without a byte
    representation, the payload [sign] hands to [SignableRequest::new]
    (read from the request after lines 165-182) is the empty byte sequence,
    whose lowercase hex SHA-256 is e3b0c442...b855. *)
Theorem sign_empty_payload d r :
  (Http.body r = None \/ exists bd, Http.body r = Some bd /\ as_bytes bd = None) ->
  signable_body (prepared d r) = "" /\
  AwsSigv4.payload_hash (signable_body (prepared d r))
  = "e3b0c44298fc1c149afbf4c8996fb92427ae41e4649b934ca495991b7852b855".
Proof.
  intro H.
  assert (E : signable_body (prepared d r) = "").
  { unfold signable_body. rewrite (proj2 (proj2 (prepared_fields d r))).
    destruct H as [H|(bd & H & Hb)]; rewrite H; [reflexivity|rewrite Hb; reflexivity]. }
  split; [exact E|]. rewrite E. vm_compute. reflexivity.
Qed.

(* ================================================================= *)
(** ** Instances of the theorems on concrete inputs *)

Lemma sign_frame_witness :
  match sign_result example_builder clock_a clock_a frame_request with
  | Ok r' =>
      Http.method r' = Http.method frame_request /\ Http.url r' = Http.url frame_request /\
      Http.body r' = Http.body frame_request /\
      headers_outside (touched_headers example_builder) (Http.headers r') =
      headers_outside (touched_headers example_builder) (Http.headers frame_request)
  | _ => False
  end.
Proof.
  destruct (sign_result example_builder clock_a clock_a frame_request) as [r'|e|m] eqn:E.
  - exact (sign_frame _ _ _ _ _ E).
  - vm_compute in E. discriminate.
  - vm_compute in E. discriminate.
Defined.

Lemma sign_err_state_witness :
  snd (sign AwsSigv4.signable_new AwsSigv4.sign (builder_header example_builder "x-custom")
         clock_a clock_a example_request)
  = Err (BuildError "missing header x-custom which is required for signing") /\
  (fst (sign AwsSigv4.signable_new AwsSigv4.sign (builder_header example_builder "x-custom")
          clock_a clock_a example_request) = example_request \/
   fst (sign AwsSigv4.signable_new AwsSigv4.sign (builder_header example_builder "x-custom")
          clock_a clock_a example_request)
   = prepared (date_or (builder_header example_builder "x-custom") clock_a) example_request).
Proof.
  split.
  - vm_compute. reflexivity.
  - apply (sign_err_state AwsSigv4.signable_new AwsSigv4.sign _ _ _ _
             (BuildError "missing header x-custom which is required for signing")).
    vm_compute. reflexivity.
Defined.

Lemma sign_missing_config_witness :
  region (builder_credentials (builder_service builder_new "service") example_credentials) = None /\
  exists msg, sign AwsSigv4.signable_new AwsSigv4.sign
    (builder_credentials (builder_service builder_new "service") example_credentials)
    clock_a clock_a example_request = (example_request, Err (BuildError msg)).
Proof.
  split; [reflexivity|].
  apply (proj1 (sign_missing_config AwsSigv4.signable_new AwsSigv4.sign
    (builder_credentials (builder_service builder_new "service") example_credentials)
    clock_a clock_a example_request)).
  right. left. reflexivity.
Defined.

Lemma sign_missing_signed_header_witness :
  snd (sign AwsSigv4.signable_new AwsSigv4.sign (builder_header example_builder "x-custom")
         clock_a clock_a example_request)
  = Err (BuildError ("missing header " ++ "x-custom" ++ " which is required for signing")).
Proof.
  apply (proj2 (sign_missing_signed_header AwsSigv4.signable_new AwsSigv4.sign
                  (builder_header example_builder "x-custom") clock_a clock_a
                  example_request "x-custom" ltac:(vm_compute; reflexivity)
                  ltac:(vm_compute; discriminate) ltac:(vm_compute; discriminate)
                  ltac:(vm_compute; reflexivity))
           ["host"; "x-amz-date"] []).
  - reflexivity.
  - vm_compute. discriminate.
  - vm_compute. discriminate.
  - vm_compute. discriminate.
  - vm_compute. reflexivity.
Defined.

Lemma sign_set_has_host_date_witness :
  In "host" (headers (builder_header builder_new "x-custom")) /\
  In "x-amz-date" (headers (builder_header builder_new "x-custom")) /\
  (forall s s' l, collect_signed (headers (builder_header builder_new "x-custom")) s = (s', Ok l) ->
   In "host" (map fst l) /\ In "x-amz-date" (map fst l)).
Proof.
  apply sign_set_has_host_date. apply reach_header. apply reach_new.
Defined.

Lemma sign_empty_payload_witness :
  signable_body (prepared builder_time example_request) = "" /\
  AwsSigv4.payload_hash (signable_body (prepared builder_time example_request))
  = "e3b0c44298fc1c149afbf4c8996fb92427ae41e4649b934ca495991b7852b855".
Proof.
  apply sign_empty_payload. left. reflexivity.
Defined.

Lemma sign_no_panic_valid_text_witness :
  url_has_valid_host (Http.url example_request) = true /\ builder_text_valid example_builder = true /\
  sign_result example_builder clock_a clock_a example_request <> Panic "aws signature invalid".
Proof.
  split; [vm_compute; reflexivity|split; [vm_compute; reflexivity|]].
  apply sign_no_panic_valid_text; vm_compute; reflexivity.
Defined.

Lemma sign_hostless_url_witness :
  sign AwsSigv4.signable_new AwsSigv4.sign example_builder clock_a clock_a hostless_request =
  sign_after_host AwsSigv4.signable_new AwsSigv4.sign example_credentials
    (date_or example_builder clock_a) "us-east-1" "service" (headers example_builder) clock_a
    (Http.with_headers (Http.headers hostless_request ++ [("host", [""])])%list hostless_request).
Proof.
  apply sign_hostless_url; reflexivity.
Defined.

(* ================================================================= *)
(** ** Further properties of [sign] and its callers

    Normal forms of [sign] with the library model, the header-map algebra
    of [add_headers], and properties of re-signing, of the values [sign]
    writes, of its error paths, of [sign_request] and of the [Display] of
    [SignedHeaders]. *)

Lemma add_headers_snd_indep hs s1 s2 : snd (add_headers hs s1) = snd (add_headers hs s2).
Proof.
  revert s1 s2. induction hs as [|[n v] t IH]; intros s1 s2; [reflexivity|].
  cbn [add_headers]. unfold bind, expect.
  destruct (header_name_from_str n); [|reflexivity].
  destruct (header_value_from_str v); [|reflexivity].
  unfold modify_headers. cbv beta iota. apply IH.
Qed.

Lemma add_headers_ok_eq hs s s2 :
  add_headers hs s = (s2, Ok tt) -> s2 = Http.with_headers (hm_apply hs (Http.headers s)) s.
Proof.
  intro H. destruct (add_headers_ok _ _ _ H) as (H1 & H2 & H3 & H4).
  destruct s2, s. cbn in *. subst. reflexivity.
Qed.

Lemma sign_tail_nf c rg sv hs now1 s :
  snd (sign_tail AwsSigv4.signable_new AwsSigv4.sign c rg sv hs now1 s) = tail_nf c rg sv hs now1 s.
Proof.
  unfold sign_tail, tail_nf, bind. cbn [v4_build lift]. cbv beta iota.
  pose proof (collect_signed_pure hs s) as Hp.
  destruct (collect_signed hs s) as [s1 o] eqn:Ecol; cbn in Hp; subst s1; cbn [snd].
  destruct o as [l|e|m]; cbv beta iota; [|reflexivity|reflexivity].
  unfold get_req, lift, lift_lib, AwsSigv4.signable_new, sr_of, tail_params.
  destruct (AwsSigv4.uri_parses (Http.url s)); cbv beta iota; [|reflexivity].
  destruct (AwsSigv4.sign _ _) as [i|e|m] eqn:Ei; cbv beta iota; [|reflexivity|reflexivity].
  destruct (aws_sign_instructions _ _ _ Ei) as [Hq _].
  destruct (add_headers (si_headers i) s) as [s2 [[]|e|m]] eqn:Eadd; cbv beta iota;
    [|reflexivity|reflexivity].
  rewrite Hq, add_query_nil. cbn. f_equal. apply add_headers_ok_eq. exact Eadd.
Qed.

Lemma sign_result_nf b now0 now1 r :
  sign_result b now0 now1 r =
  match credentials b, region b, service b with
  | Some c, Some rg, Some sv =>
      match snd (ensure_host r) with
      | Ok _ => tail_nf c rg sv (headers b) now1 (prepared (date_or b now0) r)
      | Err e => Err e
      | Panic m => Panic m
      end
  | None, _, _ => Err (BuildError "aws credentials are required when creating sigv4 request")
  | Some _, None, _ => Err (BuildError "region is required when creating a sigv4 request")
  | Some _, Some _, None => Err (BuildError "service is required when creating a sigv4 request")
  end.
Proof.
  unfold sign_result, sign_aws. rewrite sign_unfold.
  destruct (credentials b) as [c|]; [|reflexivity].
  destruct (region b) as [rg|]; [|reflexivity].
  destruct (service b) as [sv|]; [|reflexivity].
  unfold sign_configured. unfold bind at 1.
  destruct (ensure_host_cases r) as [E|E]; rewrite E; cbv beta iota; [|reflexivity].
  unfold sign_after_host. unfold bind at 1. rewrite set_amz_date_run. cbv beta iota.
  fold (prepared (date_or b now0) r). apply sign_tail_nf.
Qed.

Lemma hm_remove_all_idem k m : hm_remove_all k (hm_remove_all k m) = hm_remove_all k m.
Proof.
  induction m as [|[n vs] t IH]; [reflexivity|].
  unfold hm_remove_all in *. cbn [filter fst].
  destruct (String.eqb n k) eqn:E; cbn [negb]; [exact IH|].
  cbn [filter fst]. rewrite E. cbn [negb]. f_equal. exact IH.
Qed.

Lemma hm_insert_insert k v v' m : hm_insert k v (hm_insert k v' m) = hm_insert k v m.
Proof.
  induction m as [|[n vs] t IH].
  - cbn. rewrite String.eqb_refl. reflexivity.
  - cbn [hm_insert]. destruct (String.eqb n k) eqn:E.
    + cbn [hm_insert]. rewrite String.eqb_refl. f_equal. apply hm_remove_all_idem.
    + cbn [hm_insert]. rewrite E. f_equal. exact IH.
Qed.

Lemma hm_remove_all_comm k k2 t :
  hm_remove_all k (hm_remove_all k2 t) = hm_remove_all k2 (hm_remove_all k t).
Proof.
  unfold hm_remove_all. induction t as [|[n vs] t IH]; [reflexivity|].
  cbn [filter fst].
  destruct (String.eqb n k2) eqn:E2, (String.eqb n k) eqn:E; cbn [negb filter fst];
    rewrite ?E, ?E2; cbn [negb]; first [exact IH | f_equal; exact IH].
Qed.

Lemma hm_remove_all_keep k n x t :
  String.eqb n k = false -> hm_remove_all k ((n, x) :: t) = (n, x) :: hm_remove_all k t.
Proof. intro E. unfold hm_remove_all. cbn [filter fst]. rewrite E. reflexivity. Qed.

Lemma hm_remove_all_drop k x t : hm_remove_all k ((k, x) :: t) = hm_remove_all k t.
Proof. unfold hm_remove_all. cbn [filter fst]. rewrite String.eqb_refl. reflexivity. Qed.

Lemma hm_insert_hit k v x t : hm_insert k v ((k, x) :: t) = (k, [v]) :: hm_remove_all k t.
Proof. cbn [hm_insert]. rewrite String.eqb_refl. reflexivity. Qed.

Lemma hm_insert_miss k v n x t :
  String.eqb n k = false -> hm_insert k v ((n, x) :: t) = (n, x) :: hm_insert k v t.
Proof. intro E. cbn [hm_insert]. rewrite E. reflexivity. Qed.

Lemma hm_remove_all_insert_other k k2 b t :
  k <> k2 -> hm_remove_all k (hm_insert k2 b t) = hm_insert k2 b (hm_remove_all k t).
Proof.
  intro Hk.
  assert (E : String.eqb k2 k = false) by (apply String.eqb_neq; congruence).
  induction t as [|[n vs] t IH].
  - cbn [hm_insert]. rewrite hm_remove_all_keep by exact E. reflexivity.
  - destruct (String.eqb n k2) eqn:E2.
    + apply String.eqb_eq in E2. subst n.
      rewrite hm_insert_hit, hm_remove_all_keep, hm_remove_all_keep, hm_insert_hit by exact E.
      f_equal. apply hm_remove_all_comm.
    + rewrite hm_insert_miss by exact E2.
      destruct (String.eqb n k) eqn:Ek.
      * apply String.eqb_eq in Ek. subst n. rewrite !hm_remove_all_drop. exact IH.
      * rewrite !hm_remove_all_keep by exact Ek. rewrite hm_insert_miss by exact E2.
        f_equal. exact IH.
Qed.



Lemma hm_insert_comm k a k2 b m :
  k <> k2 -> In k (map fst m) ->
  hm_insert k a (hm_insert k2 b m) = hm_insert k2 b (hm_insert k a m).
Proof.
  intros Hk Hin.
  assert (E : String.eqb k2 k = false) by (apply String.eqb_neq; congruence).
  assert (E' : String.eqb k k2 = false) by (apply String.eqb_neq; congruence).
  induction m as [|[n vs] t IH]; [destruct Hin|].
  destruct (String.eqb n k) eqn:Ek.
  - apply String.eqb_eq in Ek. subst n.
    rewrite (hm_insert_miss k2 b k vs t E'), !hm_insert_hit, hm_insert_miss by exact E'.
    f_equal. apply hm_remove_all_insert_other. exact Hk.
  - destruct (String.eqb n k2) eqn:Ek2.
    + apply String.eqb_eq in Ek2. subst n.
      rewrite hm_insert_hit, hm_insert_miss, hm_insert_miss, hm_insert_hit by exact E.
      f_equal. symmetry. apply hm_remove_all_insert_other. congruence.
    + rewrite !hm_insert_miss by assumption. f_equal. apply IH.
      destruct Hin as [Hin|Hin]; [cbn in Hin; subst n; rewrite String.eqb_refl in Ek; discriminate|exact Hin].
Qed.

Lemma in_keys_insert_self k v m : In k (map fst (hm_insert k v m)).
Proof.
  induction m as [|[n vs] t IH]; [left; reflexivity|].
  destruct (String.eqb n k) eqn:E.
  - apply String.eqb_eq in E. subst n. rewrite hm_insert_hit. left. reflexivity.
  - rewrite hm_insert_miss by exact E. right. exact IH.
Qed.

Lemma in_keys_remove_all k k2 m : k <> k2 -> In k (map fst m) -> In k (map fst (hm_remove_all k2 m)).
Proof.
  intros Hk Hin. unfold hm_remove_all. rewrite in_map_iff in *.
  destruct Hin as ([n vs] & Hn & Hx). cbn in Hn. subst n.
  exists (k, vs). split; [reflexivity|]. apply filter_In. split; [exact Hx|].
  cbn. rewrite (proj2 (String.eqb_neq k k2) Hk). reflexivity.
Qed.

Lemma in_keys_insert k k2 v m : In k (map fst m) -> In k (map fst (hm_insert k2 v m)).
Proof.
  intro Hin. destruct (String.eqb k k2) eqn:E.
  - apply String.eqb_eq in E. subst. apply in_keys_insert_self.
  - apply String.eqb_neq in E. induction m as [|[n vs] t IH]; [destruct Hin|].
    destruct (String.eqb n k2) eqn:E2.
    + apply String.eqb_eq in E2. subst n. rewrite hm_insert_hit.
      destruct Hin as [Hin|Hin]; [cbn in Hin; congruence|].
      right. apply in_keys_remove_all; assumption.
    + rewrite hm_insert_miss by exact E2.
      destruct Hin as [Hin|Hin]; [left; exact Hin|right; apply IH; exact Hin].
Qed.

Lemma in_keys_apply k hs m : In k (map fst m) -> In k (map fst (hm_apply hs m)).
Proof.
  revert m. induction hs as [|e t IH]; intros m Hin; [exact Hin|].
  unfold hm_apply. cbn [fold_left]. fold (hm_apply t (hm_insert (to_lowercase (fst e)) (snd e) m)).
  apply IH. apply in_keys_insert. exact Hin.
Qed.

Lemma hm_apply_cons e t m :
  hm_apply (e :: t) m = hm_apply t (hm_insert (to_lowercase (fst e)) (snd e) m).
Proof. reflexivity. Qed.

Lemma hm_insert_apply_comm k v hs m :
  ~ In k (hm_keys hs) -> In k (map fst m) ->
  hm_insert k v (hm_apply hs m) = hm_apply hs (hm_insert k v m).
Proof.
  revert m. induction hs as [|e t IH]; intros m Hk Hin; [reflexivity|].
  rewrite !hm_apply_cons. cbn [hm_keys map] in Hk.
  rewrite IH.
  - f_equal. apply hm_insert_comm; [|exact Hin].
    intro E. apply Hk. left. symmetry. exact E.
  - intro H. apply Hk. right. exact H.
  - apply in_keys_insert. exact Hin.
Qed.

Lemma hm_apply_apply i i0 m :
  hm_keys i = hm_keys i0 -> NoDup (hm_keys i) ->
  hm_apply i (hm_apply i0 m) = hm_apply i m.
Proof.
  revert i0 m. induction i as [|e t IH]; intros i0 m Hk Hnd.
  - destruct i0; [reflexivity|discriminate].
  - destruct i0 as [|e0 t0]; [discriminate|].
    cbn [hm_keys map] in Hk. injection Hk as Hk Ht.
    fold (hm_keys t) (hm_keys t0) in Ht.
    cbn [hm_keys map] in Hnd. inversion Hnd as [|? ? Hnot Hnd']; subst.
    fold (hm_keys t) in Hnot, Hnd'.
    rewrite !hm_apply_cons. rewrite <- Hk.
    rewrite hm_insert_apply_comm.
    + rewrite hm_insert_insert. apply IH; assumption.
    + rewrite <- Ht. exact Hnot.
    + apply in_keys_insert_self.
Qed.

Lemma hm_apply_insert_head n a t k v m :
  to_lowercase n = k ->
  hm_apply ((n, a) :: t) (hm_insert k v m) = hm_apply ((n, a) :: t) m.
Proof. intro E. rewrite !hm_apply_cons. cbn [fst snd]. rewrite E, hm_insert_insert. reflexivity. Qed.

Lemma hm_get_insert_same h k v m : to_lowercase h = k -> hm_get h (hm_insert k v m) = Some v.
Proof.
  intro E. subst k. induction m as [|[n vs] t IH].
  - cbn. rewrite String.eqb_refl. reflexivity.
  - destruct (String.eqb n (to_lowercase h)) eqn:E.
    + apply String.eqb_eq in E. subst n. rewrite hm_insert_hit. cbn. rewrite String.eqb_refl. reflexivity.
    + rewrite hm_insert_miss by exact E. cbn [hm_get]. rewrite E. exact IH.
Qed.

Lemma hm_get_apply_other h hs m :
  ~ In (to_lowercase h) (hm_keys hs) -> hm_get h (hm_apply hs m) = hm_get h m.
Proof.
  revert m. induction hs as [|e t IH]; intros m Hk; [reflexivity|].
  rewrite hm_apply_cons. cbn [hm_keys map] in Hk. rewrite IH.
  - apply hm_get_insert_other. intro E. apply Hk. left. symmetry. exact E.
  - intro H. apply Hk. right. exact H.
Qed.

Lemma instruction_shape sr c rg sv now1 i :
  AwsSigv4.sign sr (tail_params c rg sv now1) = LibOk i ->
  hm_keys (si_headers i) = instruction_keys c /\
  exists t, si_headers i = ("x-amz-date", AwsSigv4.format_date_time now1) :: t.
Proof.
  intro H. destruct (aws_sign_instructions _ _ _ H) as [_ [auth Hh]]. rewrite Hh.
  unfold AwsSigv4.instruction_headers, tail_params, instruction_keys.
  cbn [identity settings payload_checksum_kind sp_time].
  split; [|eexists; reflexivity].
  destruct (session_token c); reflexivity.
Qed.

Lemma instruction_keys_nodup c : NoDup (instruction_keys c).
Proof.
  unfold instruction_keys.
  destruct (session_token c); cbn [app];
    repeat (constructor; [cbn; intro H; repeat destruct H as [H|H]; try discriminate H; exact H|]);
    constructor.
Qed.

Lemma hm_contains_key_in k m : hm_contains_key k m = true <-> In k (map fst m).
Proof.
  unfold hm_contains_key. rewrite existsb_exists. split.
  - intros ([n vs] & Hx & E). apply String.eqb_eq in E. cbn in E. subst n.
    apply in_map_iff. exists (k, vs). split; [reflexivity|exact Hx].
  - intro H. apply in_map_iff in H. destruct H as ([n vs] & Hn & Hx). cbn in Hn. subst n.
    exists (k, vs). split; [exact Hx|apply String.eqb_refl].
Qed.

Lemma ensure_host_present r :
  hm_contains_key "host" (Http.headers r) = true -> ensure_host r = (r, Ok tt) /\ host_step r = r.
Proof.
  intro H. unfold ensure_host, bind, get_req, host_step. rewrite H. split; reflexivity.
Qed.

Lemma host_step_has_host r : In "host" (map fst (Http.headers (host_step r))).
Proof.
  unfold host_step. destruct (hm_contains_key "host" (Http.headers r)) eqn:E.
  - apply hm_contains_key_in. exact E.
  - apply in_keys_insert_self.
Qed.

Lemma with_headers_same_fields hs s1 s2 :
  Http.method s1 = Http.method s2 -> Http.url s1 = Http.url s2 -> Http.body s1 = Http.body s2 ->
  Http.with_headers hs s1 = Http.with_headers hs s2.
Proof. intros H1 H2 H3. unfold Http.with_headers. rewrite H1, H2, H3. reflexivity. Qed.

Lemma collect_signed_cons_snd h t s :
  snd (collect_signed (h :: t) s) =
  match hm_get h (Http.headers s) with
  | None => Err (BuildError ("missing header " ++ h ++ " which is required for signing"))
  | Some v =>
      if all_bytes visible_ascii v then
        match snd (collect_signed t s) with
        | Ok l => Ok ((h, v) :: l) | Err e => Err e | Panic m => Panic m
        end
      else Err ToStrError
  end.
Proof.
  cbn [collect_signed]. unfold bind, get_req, ok_or, to_str. cbv beta.
  destruct (hm_get h (Http.headers s)) as [v|]; [|reflexivity].
  destruct (all_bytes visible_ascii v); [|reflexivity].
  pose proof (collect_signed_pure t s) as Hp.
  destruct (collect_signed t s) as [s' [l|e|m]]; cbn in Hp; subst; reflexivity.
Qed.

Lemma collect_signed_ext hs s1 s2 :
  (forall h, In h hs -> hm_get h (Http.headers s1) = hm_get h (Http.headers s2)) ->
  snd (collect_signed hs s1) = snd (collect_signed hs s2).
Proof.
  induction hs as [|h t IH]; intro H; [reflexivity|].
  rewrite !collect_signed_cons_snd. rewrite H by (left; reflexivity).
  rewrite IH by (intros x Hx; apply H; right; exact Hx). reflexivity.
Qed.

Lemma sr_of_same s1 s2 l : same_message s1 s2 -> sr_of s1 l = sr_of s2 l.
Proof.
  intros (H1 & H2 & H3). unfold sr_of, signable_body. rewrite H1, H2, H3. reflexivity.
Qed.

Lemma tail_nf_ext c rg sv hs now1 s1 s2 :
  same_message s1 s2 ->
  (forall h, In h hs -> hm_get h (Http.headers s1) = hm_get h (Http.headers s2)) ->
  (forall sr i, AwsSigv4.sign sr (tail_params c rg sv now1) = LibOk i ->
     hm_apply (si_headers i) (Http.headers s1) = hm_apply (si_headers i) (Http.headers s2)) ->
  tail_nf c rg sv hs now1 s1 = tail_nf c rg sv hs now1 s2.
Proof.
  intros Hs Hg Ha. unfold tail_nf. rewrite (collect_signed_ext hs s1 s2 Hg).
  destruct (snd (collect_signed hs s2)) as [l|e|m]; [|reflexivity|reflexivity].
  rewrite (sr_of_same s1 s2 l Hs), (proj1 (proj2 Hs)).
  destruct (AwsSigv4.uri_parses (Http.url s2)); [|reflexivity].
  destruct (AwsSigv4.sign (sr_of s2 l) _) as [i|e|m] eqn:Ei; [|reflexivity|reflexivity].
  rewrite (add_headers_snd_indep _ s1 s2).
  destruct (snd (add_headers (si_headers i) s2)); [|reflexivity|reflexivity].
  rewrite (Ha _ _ Ei). destruct Hs as (H1 & H2 & H3).
  rewrite (with_headers_same_fields _ s1 s2 H1 H2 H3). reflexivity.
Qed.

Lemma prepared_headers d r :
  Http.headers (prepared d r) = hm_insert "x-amz-date" (format_amz_date d) (Http.headers (host_step r)).
Proof. reflexivity. Qed.

Lemma tail_nf_ok c rg sv hs now1 s r1 :
  tail_nf c rg sv hs now1 s = Ok r1 ->
  exists l i, snd (collect_signed hs s) = Ok l /\
    AwsSigv4.sign (sr_of s l) (tail_params c rg sv now1) = LibOk i /\
    r1 = Http.with_headers (hm_apply (si_headers i) (Http.headers s)) s.
Proof.
  unfold tail_nf.
  destruct (snd (collect_signed hs s)) as [l|e|m]; try discriminate.
  destruct (AwsSigv4.uri_parses (Http.url s)); [|discriminate].
  destruct (AwsSigv4.sign (sr_of s l) _) as [i|e|m] eqn:Ei; try discriminate.
  destruct (snd (add_headers (si_headers i) s)); try discriminate.
  intro H. injection H as H. exists l, i. repeat split; [exact Ei|symmetry; exact H].
Qed.

Lemma instruction_keys_no_host c : ~ In "host" (instruction_keys c).
Proof.
  unfold instruction_keys. destruct (session_token c); cbn; intro H;
    repeat destruct H as [H|H]; try discriminate H; exact H.
Qed.

Lemma sign_ok_parts b now0 now1 r r' :
  sign_result b now0 now1 r = Ok r' ->
  exists c rg sv i,
    credentials b = Some c /\ region b = Some rg /\ service b = Some sv /\
    (exists l, AwsSigv4.sign (sr_of (prepared (date_or b now0) r) l) (tail_params c rg sv now1) = LibOk i) /\
    Http.headers r' = hm_apply (si_headers i) (Http.headers (prepared (date_or b now0) r)).
Proof.
  rewrite sign_result_nf.
  destruct (credentials b) as [c|]; [|discriminate].
  destruct (region b) as [rg|]; [|discriminate].
  destruct (service b) as [sv|]; [|discriminate].
  destruct (snd (ensure_host r)); try discriminate.
  intro H. destruct (tail_nf_ok _ _ _ _ _ _ _ H) as (l & i & _ & Ei & ->).
  exists c, rg, sv, i. split; [reflexivity|]. split; [reflexivity|]. split; [reflexivity|].
  split; [exists l; exact Ei|reflexivity].
Qed.

(** On success the host header is the caller's when the request had one,
    and otherwise the URL's host (empty when the URL has none). *)
Theorem sign_host_header b now0 now1 r r' :
  sign_result b now0 now1 r = Ok r' ->
  hm_get "host" (Http.headers r') =
  if hm_contains_key "host" (Http.headers r) then hm_get "host" (Http.headers r)
  else Some (match host (Http.url r) with Some h => h | None => "" end).
Proof.
  intro H. destruct (sign_ok_parts _ _ _ _ _ H) as (c & rg & sv & i & _ & _ & _ & [l Ei] & ->).
  destruct (instruction_shape _ _ _ _ _ _ Ei) as [Hk _].
  rewrite hm_get_apply_other by (rewrite Hk; apply instruction_keys_no_host).
  rewrite prepared_headers, hm_get_insert_other by discriminate.
  unfold host_step. destruct (hm_contains_key "host" (Http.headers r)); [reflexivity|].
  cbn [Http.headers Http.with_headers]. apply hm_get_insert_same. reflexivity.
Qed.

(** On success x-amz-date holds the second clock reading (line 192) in the
    [YYYYMMDD'T'HHMMSS'Z'] form, whatever the builder's date. *)
Theorem sign_date_header b now0 now1 r r' :
  sign_result b now0 now1 r = Ok r' ->
  hm_get "x-amz-date" (Http.headers r') = Some (AwsSigv4.format_date_time now1).
Proof.
  intro H. destruct (sign_ok_parts _ _ _ _ _ H) as (c & rg & sv & i & _ & _ & _ & [l Ei] & ->).
  destruct (instruction_shape _ _ _ _ _ _ Ei) as [Hk [t Ht]].
  pose proof (instruction_keys_nodup c) as Hnd. rewrite <- Hk, Ht in Hnd.
  cbn [hm_keys map] in Hnd. inversion Hnd as [|? ? Hnot _]; subst.
  rewrite Ht, hm_apply_cons. cbn [fst snd].
  rewrite hm_get_apply_other by exact Hnot.
  apply hm_get_insert_same. reflexivity.
Qed.

Lemma collect_signed_err hs s e :
  snd (collect_signed hs s) = Err e ->
  e = ToStrError \/
  exists h, In h hs /\ hm_get h (Http.headers s) = None /\
            e = BuildError ("missing header " ++ h ++ " which is required for signing").
Proof.
  revert e. induction hs as [|h t IH]; intro e; [discriminate|].
  rewrite collect_signed_cons_snd.
  destruct (hm_get h (Http.headers s)) as [v|] eqn:Eg.
  - destruct (all_bytes visible_ascii v); [|intro H; injection H as <-; left; reflexivity].
    destruct (snd (collect_signed t s)) as [l|e'|m]; try discriminate.
    intro H. injection H as <-. destruct (IH e' eq_refl) as [He|(h' & Hin & Hg & He)];
      [left; exact He|right; exists h'; split; [right; exact Hin|split; assumption]].
  - intro H. injection H as <-. right. exists h. split; [left; reflexivity|split; [exact Eg|reflexivity]].
Qed.

Lemma collect_signed_first_nontext pre h post s v :
  forallb (signed_value_ok s) pre = true -> hm_get h (Http.headers s) = Some v ->
  all_bytes visible_ascii v = false ->
  snd (collect_signed (pre ++ h :: post) s) = Err ToStrError.
Proof.
  intros Hpre Hg Hv. induction pre as [|a t IH].
  - cbn [app]. rewrite collect_signed_cons_snd, Hg, Hv. reflexivity.
  - cbn [forallb] in Hpre. apply andb_true_iff in Hpre as [Ha Ht].
    cbn [app]. rewrite collect_signed_cons_snd. unfold signed_value_ok in Ha.
    destruct (hm_get a (Http.headers s)) as [w|]; [|discriminate].
    rewrite Ha, (IH Ht). reflexivity.
Qed.

Lemma hm_get_wf k m :
  hm_wf m = true -> In (to_lowercase k) (map fst m) -> hm_get k m <> None.
Proof.
  induction m as [|[n vs] t IH]; intros Hw Hin; [destruct Hin|].
  cbn [hm_wf forallb fst snd] in Hw. unfold hm_wf in IH.
  apply andb_true_iff in Hw as [Hv Ht]. cbn [hm_get].
  destruct (String.eqb n (to_lowercase k)) eqn:E.
  - destruct vs; [discriminate|discriminate].
  - apply IH; [exact Ht|]. destruct Hin as [Hin|Hin]; [|exact Hin].
    cbn in Hin. subst n. rewrite String.eqb_refl in E. discriminate.
Qed.

Section AnyLibraryErrors.
Variable signable_new :
  string -> Url -> list (string * string) -> string -> SignableRequest + string.
Variable aws_sign : SignableRequest -> SigningParams -> lib_result SigningInstructions.

Lemma sign_tail_err_cases c rg sv hs now1 s e :
  snd (sign_tail signable_new aws_sign c rg sv hs now1 s) = Err e ->
  snd (collect_signed hs s) = Err e \/ exists m, e = SigningErr m.
Proof.
  unfold sign_tail, bind. cbn [v4_build lift]. cbv beta iota.
  pose proof (collect_signed_pure hs s) as Hp.
  destruct (collect_signed hs s) as [s1 [l|e'|m]] eqn:Ecol; cbn in Hp; subst s1;
    cbv beta iota; [|intro H; injection H as <-; left; reflexivity|discriminate].
  unfold get_req, lift, lift_lib. cbv beta iota.
  destruct (signable_new _ _ _ _) as [sr|err]; cbv beta iota;
    [|intro H; injection H as <-; right; eexists; reflexivity].
  destruct (aws_sign sr _) as [i|err|m]; cbv beta iota;
    [|intro H; injection H as <-; right; eexists; reflexivity|discriminate].
  pose proof (add_headers_no_err (si_headers i) s) as Ha.
  destruct (add_headers (si_headers i) s) as [s2 [[]|e2|m]]; cbv beta iota;
    [|exfalso; exact (Ha e2 eq_refl)|discriminate].
  pose proof (add_query_no_err (si_params i) s2) as Hq.
  destruct (add_query (si_params i) s2) as [s3 [[]|e3|m]]; cbv beta iota;
    [discriminate|exfalso; exact (Hq e3 eq_refl)|discriminate].
Qed.

Lemma sign_configured_err_cases c d rg sv hs now1 r e :
  snd (sign_configured signable_new aws_sign c d rg sv hs now1 r) = Err e ->
  snd (collect_signed hs (prepared d r)) = Err e \/ exists m, e = SigningErr m.
Proof.
  unfold sign_configured. unfold bind at 1.
  destruct (ensure_host_cases r) as [E|E]; rewrite E; cbv beta iota; [|discriminate].
  unfold sign_after_host. unfold bind at 1. rewrite set_amz_date_run. cbv beta iota.
  apply sign_tail_err_cases.
Qed.

(** [sign] never returns the [Sigv4Error] variant: the signing parameters
    of lines 188-195 are always complete. *)
Theorem sign_never_sigv4_error b now0 now1 r m :
  snd (sign signable_new aws_sign b now0 now1 r) <> Err (Sigv4Error m).
Proof.
  rewrite sign_unfold.
  destruct (credentials b), (region b), (service b); try discriminate.
  intro H. destruct (sign_configured_err_cases _ _ _ _ _ _ _ _ H) as [Hc|[m' Hm]];
    [|discriminate].
  destruct (collect_signed_err _ _ _ Hc) as [He|(h & _ & _ & He)]; discriminate.
Qed.

(** The builder of [sign_request] never makes [sign] return a
    [BuildError]: credentials, region and service are set, and host and
    x-amz-date are always present when they are read. *)
Theorem sign_request_no_build_error config_region service_arg c now now0 now1 r msg :
  hm_wf (Http.headers r) = true ->
  snd (sign signable_new aws_sign (sign_request_builder config_region service_arg c now)
         now0 now1 r) <> Err (BuildError msg).
Proof.
  intro Hw. rewrite sign_unfold. cbn [credentials region service sign_request_builder
    builder_credentials builder_service builder_region builder_date].
  intro H. destruct (sign_configured_err_cases _ _ _ _ _ _ _ _ H) as [Hc|[m' Hm]];
    [|discriminate].
  destruct (collect_signed_err _ _ _ Hc) as [He|(h & Hin & Hg & He)]; [discriminate|].
  cbn [headers sign_request_builder builder_credentials builder_service builder_region
       builder_date builder_new signed_headers_default] in Hin.
  rewrite prepared_headers in Hg.
  destruct Hin as [<-|[<-|[]]].
  - rewrite hm_get_insert_other in Hg by discriminate.
    unfold host_step in Hg. destruct (hm_contains_key "host" (Http.headers r)) eqn:Eh.
    + apply (hm_get_wf "host" _ Hw); [apply hm_contains_key_in; exact Eh|exact Hg].
    + cbn [Http.headers Http.with_headers] in Hg.
      rewrite hm_get_insert_same in Hg by reflexivity. discriminate.
  - rewrite hm_get_insert_same in Hg by reflexivity. discriminate.
Qed.

(** A sign-set header other than host and x-amz-date whose value is not
    visible ASCII makes [sign] return [ToStrError] (line 203), once the
    configuration is set and the earlier sign-set entries have text values. *)
Theorem sign_non_text_header b now0 now1 r h v pre post :
  url_host_valid (Http.url r) = true ->
  to_lowercase h <> "host" -> to_lowercase h <> "x-amz-date" ->
  hm_get h (Http.headers r) = Some v -> all_bytes visible_ascii v = false ->
  headers b = (pre ++ h :: post)%list ->
  credentials b <> None -> region b <> None -> service b <> None ->
  forallb (signed_value_ok (prepared (date_or b now0) r)) pre = true ->
  snd (sign signable_new aws_sign b now0 now1 r) = Err ToStrError.
Proof.
  intros Hu Hh Hd Hg Hv Hhs Hc Hr Hs Hpre.
  rewrite sign_unfold.
  destruct (credentials b); [|congruence]. destruct (region b); [|congruence].
  destruct (service b); [|congruence].
  rewrite sign_configured_run by exact Hu.
  apply sign_tail_collect_err. rewrite Hhs.
  apply (collect_signed_first_nontext _ _ _ _ v Hpre); [|exact Hv].
  rewrite hm_get_prepared by assumption. exact Hg.
Qed.

End AnyLibraryErrors.

Lemma visible_header_byte c : visible_ascii c = true -> header_value_byte c = true.
Proof.
  unfold visible_ascii, header_value_byte. intro H.
  apply orb_true_iff in H. apply orb_true_iff.
  destruct H as [H|H]; [left; exact H|right].
  apply andb_true_iff in H as [H1 H2]. apply andb_true_iff. split; [exact H1|].
  apply negb_true_iff, Z.eqb_neq. apply Z.ltb_lt in H2. lia.
Qed.

Lemma collapse_ok p cs started pending :
  p " "%char = true -> forallb p cs = true ->
  forallb p (AwsSigv4.collapse cs started pending) = true.
Proof.
  intro Hsp. revert started pending. induction cs as [|c t IH]; intros st pe H; [reflexivity|].
  cbn [forallb] in H. apply andb_true_iff in H as [Hc Ht].
  cbn [AwsSigv4.collapse]. destruct (AwsSigv4.is_space c); [apply IH; exact Ht|].
  destruct pe; cbn [forallb]; rewrite ?Hsp, Hc, IH by exact Ht; reflexivity.
Qed.

Lemma trim_all_ok v :
  all_bytes visible_ascii v = true -> all_bytes header_value_byte (AwsSigv4.trim_all v) = true.
Proof.
  intro H. unfold AwsSigv4.trim_all. rewrite all_bytes_string_of_list.
  apply collapse_ok; [reflexivity|]. unfold all_bytes in H.
  induction (list_ascii_of_string v) as [|c t IH]; [reflexivity|].
  cbn [forallb] in *. apply andb_true_iff in H as [H1 H2].
  rewrite visible_header_byte by exact H1. apply IH. exact H2.
Qed.

Lemma format_amz_date_visible d : all_bytes visible_ascii (format_amz_date d) = true.
Proof.
  unfold format_amz_date, chrono_year, two.
  destruct ((0 <=? year d) && (year d <=? 9999))%Z; [|destruct (year d <? 0)%Z];
  repeat (rewrite all_bytes_app ||
          rewrite (pad0_ok visible_ascii) by (intros x Hx; exact (proj2 (digit_ok x Hx))));
  reflexivity.
Qed.



Lemma hm_apply_apply_prefix i i0 rest m :
  hm_keys i = (hm_keys i0 ++ rest)%list -> NoDup (hm_keys i) ->
  hm_apply i (hm_apply i0 m) = hm_apply i m.
Proof.
  revert i m. induction i0 as [|e0 t0 IH]; intros i m Hk Hnd; [reflexivity|].
  destruct i as [|e t]; [discriminate|].
  cbn [hm_keys map app] in Hk. injection Hk as Hk Ht.
  fold (hm_keys t) (hm_keys t0) in Ht.
  cbn [hm_keys map] in Hnd. inversion Hnd as [|? ? Hnot Hnd']; subst.
  fold (hm_keys t) in Hnot, Hnd'.
  rewrite !hm_apply_cons. rewrite <- Hk.
  rewrite hm_insert_apply_comm.
  - rewrite hm_insert_insert. apply (IH t _ Ht Hnd').
  - intro H. apply Hnot. rewrite Ht. apply in_or_app. left. exact H.
  - apply in_keys_insert_self.
Qed.

Lemma resign_safe_spec b h :
  resign_safe b = true -> In h (headers b) -> ~ In (to_lowercase h) signature_headers.
Proof.
  unfold resign_safe. rewrite forallb_forall. intros H Hh Hin.
  specialize (H h Hh). apply negb_true_iff in H.
  rewrite in_names_existsb in H by exact Hin. discriminate.
Qed.

Lemma instruction_keys_prefix c1 c2 :
  (session_token c1 <> None -> session_token c2 <> None) ->
  exists rest, instruction_keys c2 = (instruction_keys c1 ++ rest)%list.
Proof.
  unfold instruction_keys. intro H.
  destruct (session_token c1) as [t1|], (session_token c2) as [t2|].
  - exists []. reflexivity.
  - exfalso. apply (H ltac:(discriminate)). reflexivity.
  - exists ["x-amz-security-token"]. reflexivity.
  - exists []. reflexivity.
Qed.

Lemma resign_general b1 b2 now0 now1 now0' now1' r r1 :
  sign_result b1 now0 now1 r = Ok r1 ->
  resign_safe b2 = true -> implb (has_token b1) (has_token b2) = true ->
  sign_result b2 now0' now1' r1 = sign_result b2 now0' now1' r.
Proof.
  intros H Hb Htok. rewrite !sign_result_nf.
  destruct (credentials b2) as [c2|] eqn:Ec2; [|reflexivity].
  destruct (region b2) as [rg2|]; [|reflexivity].
  destruct (service b2) as [sv2|]; [|reflexivity].
  rewrite sign_result_nf in H.
  destruct (credentials b1) as [c1|] eqn:Ec1; [|discriminate].
  destruct (region b1) as [rg1|]; [|discriminate].
  destruct (service b1) as [sv1|]; [|discriminate].
  destruct (ensure_host_cases r) as [E|E]; rewrite E in H; cbn [snd] in H; [|discriminate].
  rewrite E. cbn [snd].
  destruct (tail_nf_ok _ _ _ _ _ _ _ H) as (l0 & i0 & Hc & Ei & Hr1). subst r1.
  set (s0 := prepared (date_or b1 now0) r) in *.
  assert (Hhost : hm_contains_key "host"
                    (Http.headers (Http.with_headers (hm_apply (si_headers i0) (Http.headers s0)) s0))
                  = true).
  { apply hm_contains_key_in. cbn [Http.headers Http.with_headers]. apply in_keys_apply.
    unfold s0. rewrite prepared_headers. apply in_keys_insert. apply host_step_has_host. }
  destruct (ensure_host_present _ Hhost) as [Ee Hs]. rewrite Ee. cbn [snd].
  destruct (instruction_shape _ _ _ _ _ _ Ei) as [Hk0 [t0 Ht0]].
  apply tail_nf_ext.
  - destruct (prepared_fields (date_or b2 now0') (Http.with_headers (hm_apply (si_headers i0)
                (Http.headers s0)) s0)) as (P1 & P2 & P3).
    destruct (prepared_fields (date_or b2 now0') r) as (Q1 & Q2 & Q3).
    destruct (prepared_fields (date_or b1 now0) r) as (R1 & R2 & R3).
    unfold same_message. rewrite P1, P2, P3, Q1, Q2, Q3.
    cbn [Http.method Http.url Http.body Http.with_headers].
    unfold s0. rewrite R1, R2, R3. repeat split.
  - intros h Hh. rewrite !prepared_headers, Hs. cbn [Http.headers Http.with_headers].
    destruct (String.eqb (to_lowercase h) "x-amz-date") eqn:Ex.
    + apply String.eqb_eq in Ex. rewrite !hm_get_insert_same by exact Ex. reflexivity.
    + apply String.eqb_neq in Ex. rewrite !hm_get_insert_other by exact Ex.
      rewrite hm_get_apply_other.
      * unfold s0. rewrite prepared_headers, hm_get_insert_other by exact Ex. reflexivity.
      * pose proof (resign_safe_spec _ _ Hb Hh) as Hn.
        rewrite Hk0. unfold instruction_keys. intro Hin. apply in_app_or in Hin.
        destruct Hin as [Hin|Hin].
        -- destruct Hin as [Hin|Hin]; [congruence|].
           apply Hn. cbn. destruct Hin as [Hin|[Hin|[]]]; auto.
        -- destruct (session_token c1); [|destruct Hin].
           destruct Hin as [Hin|[]]. apply Hn. cbn. auto.
  - intros sr i Ei'. destruct (instruction_shape _ _ _ _ _ _ Ei') as [Hk [t Ht]].
    rewrite !prepared_headers, Hs. cbn [Http.headers Http.with_headers].
    rewrite Ht, !hm_apply_insert_head by reflexivity. rewrite <- Ht.
    unfold s0. rewrite prepared_headers.
    rewrite Ht0, hm_apply_insert_head by reflexivity. rewrite <- Ht0.
    assert (Hpre : session_token c1 <> None -> session_token c2 <> None).
    { unfold has_token in Htok. rewrite Ec1, Ec2 in Htok.
      destruct (session_token c1), (session_token c2); cbn in Htok; congruence. }
    destruct (instruction_keys_prefix _ _ Hpre) as [rest Hrest].
    apply (hm_apply_apply_prefix _ _ rest).
    + rewrite Hk, Hk0. exact Hrest.
    + rewrite Hk. apply instruction_keys_nodup.
Qed.

(** Signing a request that an earlier [sign] returned gives the same
    outcome as signing the original request, whatever the two builders and
    clocks, when the second builder's sign-set names none of the signature
    headers and it has a session token if the first builder had one. *)
Theorem sign_resign b1 b2 now0 now1 now0' now1' r r1 :
  sign_result b1 now0 now1 r = Ok r1 ->
  resign_safe b2 = true -> implb (has_token b1) (has_token b2) = true ->
  sign_result b2 now0' now1' r1 = sign_result b2 now0' now1' r.
Proof. apply resign_general. Qed.

(** Signing a signed request again with the same builder and clock
    readings returns it unchanged, when the sign-set names none of the
    signature headers. *)
Theorem sign_idempotent b now0 now1 r r1 :
  sign_result b now0 now1 r = Ok r1 -> resign_safe b = true ->
  sign_result b now0 now1 r1 = Ok r1.
Proof.
  intros H Hb. rewrite (resign_general b b now0 now1 now0 now1 r r1 H Hb); [exact H|].
  destruct (has_token b); reflexivity.
Qed.

(** A request signed by [sign_request] for the endpoint's [sigv4] setting
    and then again for the [--sigv4] flag ends as the second call alone would
    sign the unsigned request, unless only the first credentials carry a
    session token. *)
Theorem sign_request_twice reg1 svc1 c1 t1 reg2 svc2 c2 t2 now0 now1 now0' now1' r r1 :
  sign_result (sign_request_builder reg1 svc1 c1 t1) now0 now1 r = Ok r1 ->
  (session_token c1 <> None -> session_token c2 <> None) ->
  sign_result (sign_request_builder reg2 svc2 c2 t2) now0' now1' r1 =
  sign_result (sign_request_builder reg2 svc2 c2 t2) now0' now1' r.
Proof.
  intros H Ht. apply (resign_general _ _ _ _ _ _ _ _ H); [reflexivity|].
  unfold has_token. cbn [credentials sign_request_builder builder_credentials].
  destruct (session_token c1), (session_token c2); try reflexivity.
  exfalso. apply (Ht ltac:(discriminate)). reflexivity.
Qed.

(** With credentials that carry no session token, a successful [sign]
    leaves the request's x-amz-security-token value as it was. *)
Theorem sign_keeps_token_header b now0 now1 r r' :
  sign_result b now0 now1 r = Ok r' -> has_token b = false ->
  hm_get "x-amz-security-token" (Http.headers r') = hm_get "x-amz-security-token" (Http.headers r).
Proof.
  intros H Ht. destruct (sign_ok_parts _ _ _ _ _ H) as (c & rg & sv & i & Hc & _ & _ & [l Ei] & ->).
  destruct (instruction_shape _ _ _ _ _ _ Ei) as [Hk _].
  unfold has_token in Ht. rewrite Hc in Ht.
  rewrite hm_get_apply_other.
  - apply hm_get_prepared; discriminate.
  - rewrite Hk. unfold instruction_keys. destruct (session_token c); [discriminate|].
    cbn. intro Hin. repeat destruct Hin as [Hin|Hin]; try discriminate Hin. exact Hin.
Qed.

Lemma list_ascii_of_string_app s1 s2 :
  list_ascii_of_string (s1 ++ s2) = (list_ascii_of_string s1 ++ list_ascii_of_string s2)%list.
Proof. induction s1 as [|c s1 IH]; [reflexivity|]. cbn. f_equal. exact IH. Qed.

Lemma split_on_run sep cs rest cur :
  forallb (fun c => negb (Ascii.eqb c sep)) cs = true ->
  AwsSigv4.split_on sep (cs ++ rest) cur = AwsSigv4.split_on sep rest (rev cs ++ cur).
Proof.
  revert cur. induction cs as [|c t IH]; intros cur H; [reflexivity|].
  cbn [forallb] in H. apply andb_true_iff in H as [Hc Ht]. apply negb_true_iff in Hc.
  cbn [app AwsSigv4.split_on]. rewrite Hc, IH by exact Ht.
  cbn [rev]. rewrite <- app_assoc. reflexivity.
Qed.

Lemma lower_ascii_not_sep c :
  Ascii.eqb c ";" = false -> Ascii.eqb (lower_ascii c) ";" = false.
Proof.
  intro H. unfold lower_ascii.
  destruct ((65 <=? byte_of c) && (byte_of c <=? 90))%Z eqn:E; [|exact H].
  apply andb_true_iff in E as [E1 E2]. apply Z.leb_le in E1, E2.
  destruct (Ascii.eqb (char_of (byte_of c + 32)) ";") eqn:E; [|reflexivity].
  apply Ascii.eqb_eq in E. exfalso.
  assert (B : byte_of (char_of (byte_of c + 32)) = (byte_of c + 32)%Z).
  { unfold char_of. rewrite byte_of_ascii_of_N; [apply Z2N.id; lia|].
    apply N2Z.inj_lt. rewrite Z2N.id by lia. cbn. lia. }
  rewrite E in B. change (byte_of ";"%char) with 59%Z in B. lia.
Qed.

Lemma to_lowercase_no_sep h :
  display_safe h = true ->
  forallb (fun c => negb (Ascii.eqb c ";")) (list_ascii_of_string (to_lowercase h)) = true.
Proof.
  unfold display_safe, all_bytes, to_lowercase. rewrite list_ascii_of_string_of_list_ascii.
  induction (list_ascii_of_string h) as [|c t IH]; intro H; [reflexivity|].
  cbn [forallb map] in *. apply andb_true_iff in H as [Hc Ht].
  apply andb_true_iff in Hc as [_ Hc]. apply negb_true_iff in Hc.
  rewrite lower_ascii_not_sep by exact Hc. cbn [negb andb]. apply IH. exact Ht.
Qed.

(** The [Display] text of a non-empty [SignedHeaders] of ASCII names
    without [;] splits at [;] back into the lowercased names. *)
Theorem signed_headers_fmt_split hs :
  hs <> [] -> forallb display_safe hs = true ->
  AwsSigv4.split_on ";" (list_ascii_of_string (signed_headers_fmt hs)) [] = map to_lowercase hs.
Proof.
  destruct hs as [|h t]; intros Hne H; [congruence|]. clear Hne.
  unfold signed_headers_fmt. revert h H. induction t as [|h' t IH]; intros h H;
    cbn [forallb] in H; apply andb_true_iff in H as [Hh Ht].
  - cbn [map String.concat]. rewrite <- (app_nil_r (list_ascii_of_string (to_lowercase h))).
    rewrite split_on_run by (apply to_lowercase_no_sep; exact Hh).
    cbn. rewrite app_nil_r, rev_involutive, string_of_list_ascii_of_string. reflexivity.
  - change (map to_lowercase (h :: h' :: t)) with (to_lowercase h :: map to_lowercase (h' :: t)).
    change (String.concat ";" (to_lowercase h :: map to_lowercase (h' :: t)))
      with (to_lowercase h ++ ";" ++ String.concat ";" (map to_lowercase (h' :: t))).
    rewrite !list_ascii_of_string_app.
    rewrite split_on_run by (apply to_lowercase_no_sep; exact Hh).
    cbn [list_ascii_of_string app AwsSigv4.split_on].
    rewrite Ascii.eqb_refl, app_nil_r, rev_involutive, string_of_list_ascii_of_string.
    f_equal. apply IH. exact Ht.
Qed.

Lemma out_rel_cons R a b (o1 o2 : outcome (list (string * string))) :
  out_rel (Forall2 R) o1 o2 -> R a b ->
  out_rel (Forall2 R)
    (match o1 with Ok l => Ok (a :: l) | Err e => Err e | Panic m => Panic m end)
    (match o2 with Ok l => Ok (b :: l) | Err e => Err e | Panic m => Panic m end).
Proof.
  intros H Hab. destruct o1, o2; cbn in *; try contradiction; try assumption.
  constructor; assumption.
Qed.

Lemma collect_date_rel hs d1 d2 r :
  out_rel (Forall2 date_entry_rel)
    (snd (collect_signed hs (prepared d1 r))) (snd (collect_signed hs (prepared d2 r))).
Proof.
  induction hs as [|h t IH]; [constructor|].
  rewrite !collect_signed_cons_snd, !prepared_headers.
  destruct (String.eqb (to_lowercase h) "x-amz-date") eqn:Ex.
  - apply String.eqb_eq in Ex. rewrite !hm_get_insert_same by exact Ex.
    rewrite !format_amz_date_visible.
    apply out_rel_cons; [exact IH|]. split; [reflexivity|right].
    split; [exact Ex|split; apply format_amz_date_visible].
  - apply String.eqb_neq in Ex. rewrite !hm_get_insert_other by exact Ex.
    destruct (hm_get h (Http.headers (host_step r))) as [v|]; [|reflexivity].
    destruct (all_bytes visible_ascii v); [|reflexivity].
    apply out_rel_cons; [exact IH|].
    split; [reflexivity|left; reflexivity].
Qed.

Lemma normalize_date_rel l1 l2 :
  Forall2 date_entry_rel l1 l2 ->
  match AwsSigv4.normalize_headers l1, AwsSigv4.normalize_headers l2 with
  | inl a, inl b => Forall2 norm_entry_rel a b
  | inr e1, inr e2 => e1 = e2
  | _, _ => False
  end.
Proof.
  induction 1 as [|[n1 v1] [n2 v2] t1 t2 [Hn Hv] _ IH]; [constructor|].
  cbn [fst snd] in Hn, Hv. subst n2. cbn [AwsSigv4.normalize_headers].
  destruct Hv as [<-|(Hx & H1 & H2)].
  - destruct (header_name_from_str (to_lowercase n1)) as [n'|]; [|reflexivity].
    destruct (header_value_from_str (AwsSigv4.trim_all v1)) as [v'|]; [|reflexivity].
    destruct (AwsSigv4.normalize_headers t1), (AwsSigv4.normalize_headers t2);
      try contradiction; [|congruence].
    constructor; [split; [reflexivity|left; reflexivity]|exact IH].
  - rewrite Hx. replace (header_name_from_str "x-amz-date") with (Some "x-amz-date")
      by (vm_compute; reflexivity).
    unfold header_value_from_str. rewrite !trim_all_ok by assumption.
    destruct (AwsSigv4.normalize_headers t1), (AwsSigv4.normalize_headers t2);
      try contradiction; [|congruence].
    constructor; [split; [reflexivity|right; reflexivity]|exact IH].
Qed.

Lemma norm_rel_existsb_host a b :
  Forall2 norm_entry_rel a b ->
  existsb (fun e => String.eqb (fst e) "host") a = existsb (fun e => String.eqb (fst e) "host") b.
Proof. induction 1 as [|x y t1 t2 [Hn _] _ IH]; [reflexivity|]. cbn. rewrite Hn, IH. reflexivity. Qed.

Lemma norm_rel_set_header_host v a b :
  Forall2 norm_entry_rel a b ->
  Forall2 norm_entry_rel (AwsSigv4.set_header "host" v a) (AwsSigv4.set_header "host" v b).
Proof.
  intro H. unfold AwsSigv4.set_header. apply Forall2_app.
  - induction H as [|x y t1 t2 Hxy _ IH]; [constructor|]. cbn [filter].
    destruct Hxy as [Hn Hv]. rewrite Hn.
    destruct (negb (String.eqb (fst y) "host")); [constructor; [split; assumption|]|]; exact IH.
  - constructor; [split; [reflexivity|left; reflexivity]|constructor].
Qed.

Lemma norm_rel_set_header_date v a b :
  Forall2 norm_entry_rel a b ->
  AwsSigv4.set_header "x-amz-date" v a = AwsSigv4.set_header "x-amz-date" v b.
Proof.
  intro H. unfold AwsSigv4.set_header. f_equal.
  induction H as [|[n1 v1] [n2 v2] t1 t2 [Hn Hv] _ IH]; [reflexivity|].
  cbn [fst snd] in Hn, Hv. subst n2. cbn [filter fst].
  destruct (String.eqb n1 "x-amz-date") eqn:E; cbn [negb]; [exact IH|].
  destruct Hv as [<-|Hv]; [f_equal; exact IH|].
  subst n1. rewrite String.eqb_refl in E. discriminate.
Qed.

Lemma canonical_headers_date_rel m u l1 l2 bd p a ph :
  Forall2 date_entry_rel l1 l2 ->
  AwsSigv4.canonical_headers (mkSignableRequest m u l1 bd) p a ph =
  AwsSigv4.canonical_headers (mkSignableRequest m u l2 bd) p a ph.
Proof.
  intro Hrel. pose proof (normalize_date_rel _ _ Hrel) as Hn.
  unfold AwsSigv4.canonical_headers. cbn [sr_headers sr_uri].
  destruct (AwsSigv4.normalize_headers l1) as [a1|e1], (AwsSigv4.normalize_headers l2) as [a2|e2];
    try contradiction; [|subst; reflexivity].
  cbv beta iota zeta. rewrite (norm_rel_existsb_host _ _ Hn).
  assert (Hx : forall v,
    AwsSigv4.set_header "x-amz-date" v
      (if existsb (fun e => String.eqb (fst e) "host") a2 then a1
       else match host u with Some h => AwsSigv4.set_header "host" h a1 | None => a1 end) =
    AwsSigv4.set_header "x-amz-date" v
      (if existsb (fun e => String.eqb (fst e) "host") a2 then a2
       else match host u with Some h => AwsSigv4.set_header "host" h a2 | None => a2 end)).
  { intro v. apply norm_rel_set_header_date.
    destruct (existsb _ a2); [exact Hn|].
    destruct (host u); [apply norm_rel_set_header_host|]; exact Hn. }
  rewrite Hx. reflexivity.
Qed.

Lemma aws_sign_date_rel s1 s2 l1 l2 p :
  same_message s1 s2 -> Forall2 date_entry_rel l1 l2 ->
  AwsSigv4.sign (sr_of s1 l1) p = AwsSigv4.sign (sr_of s2 l2) p.
Proof.
  intros (H1 & H2 & H3) Hrel. unfold sr_of, signable_body. rewrite H1, H2, H3.
  unfold AwsSigv4.sign. cbn [sr_body].
  rewrite (canonical_headers_date_rel _ _ _ _ _ _ _ _ Hrel).
  destruct (AwsSigv4.canonical_headers _ _ _ _) as [hs|e]; [|reflexivity].
  reflexivity.
Qed.

Lemma tail_nf_date c rg sv hs now1 d1 d2 r :
  tail_nf c rg sv hs now1 (prepared d1 r) = tail_nf c rg sv hs now1 (prepared d2 r).
Proof.
  assert (Hm : same_message (prepared d1 r) (prepared d2 r)).
  { destruct (prepared_fields d1 r) as (P1 & P2 & P3).
    destruct (prepared_fields d2 r) as (Q1 & Q2 & Q3).
    unfold same_message. rewrite P1, P2, P3, Q1, Q2, Q3. repeat split. }
  pose proof (collect_date_rel hs d1 d2 r) as Hc.
  unfold tail_nf.
  destruct (snd (collect_signed hs (prepared d1 r))) as [l1|e1|m1],
           (snd (collect_signed hs (prepared d2 r))) as [l2|e2|m2];
    cbn in Hc; try contradiction; try (subst; reflexivity).
  rewrite (aws_sign_date_rel _ _ _ _ _ Hm Hc), (proj1 (proj2 Hm)).
  destruct (AwsSigv4.uri_parses (Http.url (prepared d2 r))); [|reflexivity].
  destruct (AwsSigv4.sign (sr_of (prepared d2 r) l2) _) as [i|e|m] eqn:Ei;
    [|reflexivity|reflexivity].
  rewrite (add_headers_snd_indep _ (prepared d1 r) (prepared d2 r)).
  destruct (snd (add_headers (si_headers i) (prepared d2 r))); try reflexivity.
  destruct (instruction_shape _ _ _ _ _ _ Ei) as [_ [t Ht]].
  rewrite !prepared_headers, Ht, !hm_apply_insert_head by reflexivity.
  destruct Hm as (H1 & H2 & H3). rewrite (with_headers_same_fields _ _ _ H1 H2 H3). reflexivity.
Qed.

(** The builder's date never changes the outcome of [sign]: with or
    without it, and whatever the clock reading of line 157. *)
Theorem sign_ignores_builder_date b d now0 now0' now1 r :
  sign_result (builder_date b d) now0 now1 r = sign_result b now0' now1 r.
Proof.
  rewrite !sign_result_nf. cbn [credentials region service headers builder_date].
  destruct (credentials b), (region b), (service b); try reflexivity.
  destruct (snd (ensure_host r)); try reflexivity.
  apply tail_nf_date.
Qed.

Lemma aws_sign_ok_hosted sr p i : AwsSigv4.sign sr p = LibOk i -> host (sr_uri sr) <> None.
Proof.
  unfold AwsSigv4.sign. cbv zeta.
  destruct (AwsSigv4.canonical_headers _ _ _ _); [|discriminate].
  destruct (host (sr_uri sr)); intro H; [discriminate|discriminate H].
Qed.

(** [sign] succeeds only on a request whose URL has a host: for a URL
    without one, [SignableRequest::new] or the signing library fails. *)
Theorem sign_ok_url_has_host b now0 now1 r r' :
  sign_result b now0 now1 r = Ok r' -> host (Http.url r) <> None.
Proof.
  intro H. destruct (sign_ok_parts _ _ _ _ _ H) as (c & rg & sv & i & _ & _ & _ & [l Ei] & _).
  apply aws_sign_ok_hosted in Ei. cbn [sr_of sr_uri] in Ei.
  rewrite (proj1 (proj2 (prepared_fields _ _))) in Ei. exact Ei.
Qed.

(* ================================================================= *)
(** ** Instances of the further properties *)

Lemma sign_resign_witness :
  match sign_result example_builder clock_a clock_a frame_request with
  | Ok r1 =>
      sign_result (sign_request_builder (Some "us-west-2") (Some "s3") example_credentials clock_b)
        clock_b clock_b r1 =
      sign_result (sign_request_builder (Some "us-west-2") (Some "s3") example_credentials clock_b)
        clock_b clock_b frame_request
  | _ => False
  end.
Proof.
  destruct (sign_result example_builder clock_a clock_a frame_request) as [r1|e|m] eqn:E.
  - apply (sign_resign _ _ _ _ _ _ _ _ E); vm_compute; reflexivity.
  - vm_compute in E. discriminate.
  - vm_compute in E. discriminate.
Defined.

Lemma sign_request_twice_witness :
  match sign_result (sign_request_builder (Some "us-east-1") None example_credentials clock_a)
          clock_a clock_a example_request with
  | Ok r1 =>
      sign_result (sign_request_builder None (Some "s3") example_credentials clock_b)
        clock_b clock_b r1 =
      sign_result (sign_request_builder None (Some "s3") example_credentials clock_b)
        clock_b clock_b example_request
  | _ => False
  end.
Proof.
  destruct (sign_result (sign_request_builder (Some "us-east-1") None example_credentials clock_a)
              clock_a clock_a example_request) as [r1|e|m] eqn:E.
  - apply (sign_request_twice _ _ _ _ _ _ _ _ _ _ _ _ _ _ E). vm_compute. intro H. exact H.
  - vm_compute in E. discriminate.
  - vm_compute in E. discriminate.
Defined.

Lemma sign_idempotent_witness :
  match sign_result example_builder clock_a clock_a frame_request with
  | Ok r1 => sign_result example_builder clock_a clock_a r1 = Ok r1
  | _ => False
  end.
Proof.
  destruct (sign_result example_builder clock_a clock_a frame_request) as [r1|e|m] eqn:E.
  - apply (sign_idempotent _ _ _ _ _ E). vm_compute. reflexivity.
  - vm_compute in E. discriminate.
  - vm_compute in E. discriminate.
Defined.

Lemma sign_host_header_witness :
  match sign_result example_builder clock_a clock_a frame_request with
  | Ok r' => hm_get "host" (Http.headers r') = Some "example.amazonaws.com"
  | _ => False
  end.
Proof.
  destruct (sign_result example_builder clock_a clock_a frame_request) as [r'|e|m] eqn:E.
  - rewrite (sign_host_header _ _ _ _ _ E). vm_compute. reflexivity.
  - vm_compute in E. discriminate.
  - vm_compute in E. discriminate.
Defined.

Lemma sign_date_header_witness :
  match sign_result example_builder clock_a clock_b frame_request with
  | Ok r' => hm_get "x-amz-date" (Http.headers r') = Some "20240102T000000Z"
  | _ => False
  end.
Proof.
  destruct (sign_result example_builder clock_a clock_b frame_request) as [r'|e|m] eqn:E.
  - rewrite (sign_date_header _ _ _ _ _ E). vm_compute. reflexivity.
  - vm_compute in E. discriminate.
  - vm_compute in E. discriminate.
Defined.

Lemma sign_keeps_token_header_witness :
  match sign_result example_builder clock_a clock_a token_request with
  | Ok r' => hm_get "x-amz-security-token" (Http.headers r') = Some "stale"
  | _ => False
  end.
Proof.
  destruct (sign_result example_builder clock_a clock_a token_request) as [r'|e|m] eqn:E.
  - rewrite (sign_keeps_token_header _ _ _ _ _ E); vm_compute; reflexivity.
  - vm_compute in E. discriminate.
  - vm_compute in E. discriminate.
Defined.

Lemma sign_request_no_build_error_witness :
  hm_wf (Http.headers frame_request) = true /\
  snd (sign AwsSigv4.signable_new AwsSigv4.sign
         (sign_request_builder None None example_credentials clock_a) clock_a clock_a frame_request)
  <> Err (BuildError "missing header host which is required for signing").
Proof.
  split; [vm_compute; reflexivity|].
  apply sign_request_no_build_error. vm_compute. reflexivity.
Defined.

Lemma sign_non_text_header_witness :
  snd (sign AwsSigv4.signable_new AwsSigv4.sign (builder_header example_builder "x-custom")
         clock_a clock_a nontext_request) = Err ToStrError.
Proof.
  apply (sign_non_text_header _ _ (builder_header example_builder "x-custom") clock_a clock_a
           nontext_request "x-custom" (String (ascii_of_nat 200) "") ["host"; "x-amz-date"] []);
    vm_compute; first [reflexivity | discriminate | intro Hx; discriminate Hx].
Defined.


Lemma signed_headers_fmt_split_witness :
  AwsSigv4.split_on ";"
    (list_ascii_of_string (signed_headers_fmt (headers (builder_header example_builder "X-Custom"))))
    [] = ["host"; "x-amz-date"; "x-custom"].
Proof.
  rewrite signed_headers_fmt_split; [vm_compute; reflexivity|discriminate|vm_compute; reflexivity].
Defined.

Lemma sign_ok_url_has_host_witness : host (Http.url example_request) <> None.
Proof.
  destruct (sign_result example_builder clock_a clock_a example_request) as [r'|e|m] eqn:E.
  - exact (sign_ok_url_has_host _ _ _ _ _ E).
  - vm_compute in E. discriminate.
  - vm_compute in E. discriminate.
Defined.
